(** * Subtitle lookup engine of src/src/tool/const.ts and src/src/tool/read_srt.ts

    Shallow embedding of the caption indexer, the modification-time keyed
    cache and the timestamp / window lookups.

    - A JavaScript string is its sequence of UTF-16 code units ([jstr]).
    - A JavaScript number used as an index or a line number is a [Z].
    - The file system is a [gmap] from path to the file's stat data, the
      module-level [srtCache] is a [gmap] from path to the cached index.
    - A call that may throw runs in a small state-and-exception monad; the
      public operations catch every exception and turn it into a failure
      result, as their [try]/[catch] blocks do. *)

From Stdlib Require Import ZArith Lia Ascii String.
From stdpp Require Import base gmap strings list.

Open Scope Z_scope.

(* ------------------------------------------------------------------ *)
(** ** JavaScript strings *)

Module JsString.

(** A string as its UTF-16 code units. *)
Definition jstr := list N.

(** ASCII text as code units, for writing concrete inputs. *)
Fixpoint of_ascii (s : string) : jstr :=
  match s with
  | EmptyString => []
  | String c r => N_of_ascii c :: of_ascii r
  end.

(** The characters removed by [String.prototype.trim] and matched by [\s]:
    WhiteSpace and LineTerminator of ECMA-262. *)
Definition is_js_space (c : N) : bool :=
  (9 <=? c)%N && (c <=? 13)%N || (c =? 32)%N || (c =? 160)%N || (c =? 5760)%N
  || (8192 <=? c)%N && (c <=? 8202)%N || (c =? 8232)%N || (c =? 8233)%N
  || (c =? 8239)%N || (c =? 8287)%N || (c =? 12288)%N || (c =? 65279)%N.

(** [\d] of a regular expression without the [u] flag: ASCII 0-9. *)
Definition is_digit (c : N) : bool := (48 <=? c)%N && (c <=? 57)%N.

(** [line.trim().length > 0] *)
Definition trim_nonempty (l : jstr) : bool := negb (forallb is_js_space l).

(** [content.split(/\r?\n/)]: a separator is [\n], together with the
    [\r] right before it. *)
Fixpoint split_lines_acc (cur : jstr) (s : jstr) : list jstr :=
  match s with
  | [] => [rev cur]
  | 13%N :: 10%N :: r => rev cur :: split_lines_acc [] r
  | 10%N :: r => rev cur :: split_lines_acc [] r
  | c :: r => split_lines_acc (c :: cur) r
  end.

Definition split_lines (s : jstr) : list jstr := split_lines_acc [] s.

(** [arr.join('\n')] *)
Fixpoint join_nl (ls : list jstr) : jstr :=
  match ls with
  | [] => []
  | [l] => l
  | l :: r => l ++ 10%N :: join_nl r
  end.

(** Relative index of [Array.prototype.slice]. *)
Definition rel_index (len k : Z) : Z :=
  if k <? 0 then Z.max (len + k) 0 else Z.min k len.

(** [arr.slice(start, end)] *)
Definition js_slice {A} (l : list A) (start end_ : Z) : list A :=
  let len := Z.of_nat (length l) in
  let s := rel_index len start in
  let e := rel_index len end_ in
  firstn (Z.to_nat (e - s)) (skipn (Z.to_nat s) l).

(** Lexicographic order of the relational operators on strings: code unit
    by code unit, a proper prefix being smaller. *)
Fixpoint js_compare (a b : jstr) : comparison :=
  match a, b with
  | [], [] => Eq
  | [], _ :: _ => Lt
  | _ :: _, [] => Gt
  | x :: a', y :: b' =>
      match N.compare x y with
      | Eq => js_compare a' b'
      | c => c
      end
  end.

End JsString.

Import JsString.

(* ------------------------------------------------------------------ *)
(** ** Timestamp codec: [parseTimestamp] *)

Module Timestamp.

Record ts_groups := { hh : jstr; mm : jstr; ss : jstr; ms : jstr }.

(** The text matched by [\d{2}:\d{2}:\d{2},\d{3}]. *)
Definition ts_text (g : ts_groups) : jstr :=
  hh g ++ 58%N :: mm g ++ 58%N :: ss g ++ 44%N :: ms g.

(** [(?<hh>\d{2}):(?<mm>\d{2}):(?<ss>\d{2}),(?<ms>\d{3})] at the start of
    a string: the groups and the unmatched rest. *)
Definition match_ts (s : jstr) : option (ts_groups * jstr) :=
  match s with
  | h1 :: h2 :: c1 :: m1 :: m2 :: c2 :: s1 :: s2 :: c3 :: x1 :: x2 :: x3 :: rest =>
      if forallb is_digit [h1; h2; m1; m2; s1; s2; x1; x2; x3]
         && (c1 =? 58)%N && (c2 =? 58)%N && (c3 =? 44)%N
      then Some ({| hh := [h1; h2]; mm := [m1; m2]; ss := [s1; s2];
                    ms := [x1; x2; x3] |}, rest)
      else None
  | _ => None
  end.

(** [Number(text)] on a string of decimal digits. *)
Definition js_Number (ds : jstr) : Z :=
  fold_left (fun acc c => acc * 10 + (Z.of_N c - 48)) ds 0.

(** [parseTimestamp]: the pattern is anchored by [^] and [$]; [null] is
    [None]. *)
Definition parseTimestamp (value : jstr) : option Z :=
  match match_ts value with
  | Some (g, []) =>
      let hours := js_Number (hh g) in
      let minutes := js_Number (mm g) in
      let seconds := js_Number (ss g) in
      let milliseconds := js_Number (ms g) in
      Some (hours * 60 * 60 * 1000 + minutes * 60 * 1000 + seconds * 1000
            + milliseconds)
  | _ => None
  end.

End Timestamp.

Import Timestamp.

(* ------------------------------------------------------------------ *)
(** ** Caption indexer: [extractEntries] *)

Module Indexer.

(** [{ lineNumber: number; content: string }] *)
Record RawLine := { lineNumber : Z; content : jstr }.

(** [SrtEntry]; [timestampLine] is the 0-based index of the timing line. *)
Record SrtEntry := {
  start : Z;
  end_ : Z;
  timestampLine : Z;
  entryLines : list RawLine
}.

Fixpoint skip_spaces (s : jstr) : jstr :=
  match s with
  | c :: r => if is_js_space c then skip_spaces r else s
  | [] => []
  end.

(** [\s+]. It is always followed by a non-space ([-] or a digit), so the
    greedy match is the only one and no backtracking is needed. *)
Definition spaces1 (s : jstr) : option jstr :=
  match s with
  | c :: r => if is_js_space c then Some (skip_spaces r) else None
  | [] => None
  end.

(** The literal [-->]. *)
Definition match_arrow (s : jstr) : option jstr :=
  match s with
  | 45%N :: 45%N :: 62%N :: r => Some r
  | _ => None
  end.

(** [lines[i].match(TIMESTAMP_REGEX)] with
    [TIMESTAMP_REGEX = /^(\d{2}:\d{2}:\d{2},\d{3})\s+-->\s+(\d{2}:\d{2}:\d{2},\d{3})/]
    (no end anchor): the two captured groups. *)
Definition match_timing_line (line : jstr) : option (jstr * jstr) :=
  match match_ts line with
  | None => None
  | Some (g1, r1) =>
      match spaces1 r1 with
      | None => None
      | Some r2 =>
          match match_arrow r2 with
          | None => None
          | Some r3 =>
              match spaces1 r3 with
              | None => None
              | Some r4 =>
                  match match_ts r4 with
                  | None => None
                  | Some (g2, _) => Some (ts_text g1, ts_text g2)
                  end
              end
          end
      end
  end.

(** [let entryStart = i;
     while (entryStart > 0 && lines[entryStart - 1].trim().length > 0)
       entryStart -= 1;]
    ([entryStart - 1 < lines.length] always holds in the loop.) *)
Fixpoint entry_start (lines : list jstr) (entryStart : nat) : nat :=
  match entryStart with
  | O => O
  | S k =>
      match lines !! k with
      | Some l => if trim_nonempty l then entry_start lines k else entryStart
      | None => entryStart
      end
  end.

(** [while (cursor < lines.length && lines[cursor].trim().length > 0) {
       entryLines.push({ lineNumber: cursor + 1, content: lines[cursor] });
       cursor += 1; }]
    run on [rest = lines.slice(cursor)]. *)
Fixpoint collect_entry (rest : list jstr) (cursor : nat) : list RawLine :=
  match rest with
  | [] => []
  | l :: r =>
      if trim_nonempty l
      then {| lineNumber := Z.of_nat cursor + 1; content := l |}
             :: collect_entry r (S cursor)
      else []
  end.

(** The [for (let i = 0; i < lines.length; i += 1)] loop of
    [extractEntries]; [rest] is [lines.slice(i)]. *)
Fixpoint extract_loop (lines : list jstr) (i : nat) (rest : list jstr)
    : list SrtEntry :=
  match rest with
  | [] => []
  | l :: r =>
      match match_timing_line l with
      | None => extract_loop lines (S i) r
      | Some (g1, g2) =>
          match parseTimestamp g1, parseTimestamp g2 with
          | Some s, Some e =>
              let es := entry_start lines i in
              {| start := s; end_ := e; timestampLine := Z.of_nat i;
                 entryLines := collect_entry (drop es lines) es |}
                :: extract_loop lines (S i) r
          | _, _ => extract_loop lines (S i) r
          end
      end
  end.

Definition extractEntries (lines : list jstr) : list SrtEntry :=
  extract_loop lines 0 lines.

End Indexer.

Import Indexer.

(* ------------------------------------------------------------------ *)
(** ** File system, cache and the effect monad *)

Module Store.

(** What [statSync] and [readFileSync] see of a file. [readable = false]
    stands for a file that exists but cannot be opened for reading. *)
Record FileStat := { mtimeMs : Z; readable : bool; data : jstr }.

(** [SrtCacheValue] *)
Record SrtCacheValue := {
  version : Z;
  lines : list jstr;
  entries : list SrtEntry
}.

(** The process state: the files, the module-level [srtCache] map and the
    two tunables [SRT_CONTEXT_WINDOW] and [SRT_INIT_WINDOW]. *)
Record State := {
  files : gmap string FileStat;
  srtCache : gmap string SrtCacheValue;
  SRT_CONTEXT_WINDOW : Z;
  SRT_INIT_WINDOW : Z
}.

(** Outcome of a computation that may throw: an [Error] carries its
    [message]. *)
Inductive outcome (A : Type) := Ret (a : A) | Throw (message : string).
Arguments Ret {A} a.
Arguments Throw {A} message.

Definition M (A : Type) : Type := State -> outcome A * State.

#[global] Instance M_ret : MRet M := fun A a st => (Ret a, st).
#[global] Instance M_bind : MBind M := fun A B f m st =>
  match m st with
  | (Ret a, st') => f a st'
  | (Throw e, st') => (Throw e, st')
  end.

Definition throw {A} (message : string) : M A := fun st => (Throw message, st).
Definition gets {A} (f : State -> A) : M A := fun st => (Ret (f st), st).

(** [try { body } catch (error) { return handler(error.message) }]: the
    state changes made before the throw persist. *)
Definition try_catch {A} (body : M A) (handler : string -> A) (st : State)
    : A * State :=
  match body st with
  | (Ret a, st') => (a, st')
  | (Throw e, st') => (handler e, st')
  end.

Definition enoent_message (syscall path : string) : string :=
  String.append "ENOENT: no such file or directory, "
    (String.append syscall (String.append " '" (String.append path "'"))).

Definition eacces_message (path : string) : string :=
  String.append "EACCES: permission denied, open '" (String.append path "'").

(** [statSync(filePath)] *)
Definition statSync (filePath : string) : M FileStat := fun st =>
  match files st !! filePath with
  | Some f => (Ret f, st)
  | None => (Throw (enoent_message "stat" filePath), st)
  end.

(** [readFileSync(filePath, "utf-8")] *)
Definition readFileSync (filePath : string) : M jstr := fun st =>
  match files st !! filePath with
  | Some f =>
      if readable f then (Ret (data f), st)
      else (Throw (eacces_message filePath), st)
  | None => (Throw (enoent_message "open" filePath), st)
  end.

(** [srtCache.get(filePath)] and [srtCache.set(filePath, value)] *)
Definition cache_get (filePath : string) : M (option SrtCacheValue) :=
  gets (fun st => srtCache st !! filePath).

Definition with_cache (st : State) (c : gmap string SrtCacheValue) : State :=
  {| files := files st; srtCache := c;
     SRT_CONTEXT_WINDOW := SRT_CONTEXT_WINDOW st;
     SRT_INIT_WINDOW := SRT_INIT_WINDOW st |}.

Definition cache_set (filePath : string) (value : SrtCacheValue) : M unit :=
  fun st => (Ret tt, with_cache st (<[filePath := value]> (srtCache st))).

End Store.

Import Store.

(* ------------------------------------------------------------------ *)
(** ** Lookup cache and public operations of const.ts *)

Module SrtTools.

(** [getSrtData]: a fresh [statSync] every call; the cached value is
    returned when its [version] is the file's current [mtimeMs], the file
    is otherwise read, split, indexed and stored. *)
Definition getSrtData (filePath : string) : M SrtCacheValue :=
  stats ← statSync filePath;
  let version_ := mtimeMs stats in
  cached ← cache_get filePath;
  match cached with
  | Some c => if version c =? version_ then mret c else
      content ← readFileSync filePath;
      let lines_ := split_lines content in
      let entries_ := extractEntries lines_ in
      let value := {| version := version_; lines := lines_; entries := entries_ |} in
      cache_set filePath value;;
      mret value
  | None =>
      content ← readFileSync filePath;
      let lines_ := split_lines content in
      let entries_ := extractEntries lines_ in
      let value := {| version := version_; lines := lines_; entries := entries_ |} in
      cache_set filePath value;;
      mret value
  end.

(** [loadSrtLines] of const.ts *)
Definition loadSrtLines (filePath : string) : M (list jstr) :=
  v ← getSrtData filePath; mret (lines v).

(** [entries[mid]] followed by a property read: [undefined] throws. *)
Definition entry_at (entries_ : list SrtEntry) (mid : Z) : M SrtEntry :=
  match (if mid <? 0 then None else entries_ !! Z.to_nat mid) with
  | Some e => mret e
  | None => throw "Cannot read properties of undefined (reading 'start')"
  end.

(** The [while (left <= right)] loop of [getLinesAtTimestamp]; [Some entry]
    is the matching entry, [None] leaving the loop. [fuel] bounds the number
    of iterations: each one shrinks [right - left + 1], so a fuel of
    [entries.length] (the initial [right - left + 1]) never runs out
    before the loop ends. *)
Fixpoint bsearch (entries_ : list SrtEntry) (targetMs : Z) (fuel : nat)
    (left right : Z) : M (option SrtEntry) :=
  match fuel with
  | O => mret None
  | S fuel' =>
      if left <=? right then
        let mid := (left + right) / 2 in
        entry ← entry_at entries_ mid;
        if targetMs <? start entry then bsearch entries_ targetMs fuel' left (mid - 1)
        else if targetMs >? end_ entry then bsearch entries_ targetMs fuel' (mid + 1) right
        else mret (Some entry)
      else mret None
  end.

(** Result of [getLinesAtTimestamp]. *)
Inductive TsResult :=
  | TsFound (startLine endLine : Z) (entry : list RawLine) (contextLines : jstr)
  | TsFailure (message : string).

Definition msg_invalid : string := "Invalid timestamp format. Expected HH:MM:SS,mmm.".
Definition msg_nomatch : string := "No subtitle entry matches the provided timestamp.".

Definition getLinesAtTimestamp (filePath : string) (timestamp : jstr)
    : State -> TsResult * State :=
  try_catch
    (match parseTimestamp timestamp with
     | None => mret (TsFailure msg_invalid)
     | Some targetMs =>
         d ← getSrtData filePath;
         let lines_ := lines d in
         let entries_ := entries d in
         found ← bsearch entries_ targetMs (length entries_) 0
                   (Z.of_nat (length entries_) - 1);
         match found with
         | None => mret (TsFailure msg_nomatch)
         | Some entry =>
             w ← gets SRT_INIT_WINDOW;
             let matchedLineNumber := timestampLine entry + 1 in
             let startLineIndex := Z.max 0 (matchedLineNumber - 1 - w) in
             let endLineIndex := Z.min (Z.of_nat (length lines_))
                                   (matchedLineNumber - 1 + w + 1) in
             let contextLines := js_slice lines_ startLineIndex endLineIndex in
             mret (TsFound (startLineIndex + 1) endLineIndex (entryLines entry)
                     (join_nl contextLines))
         end
     end)
    TsFailure.

(** Result of [readPreviousLines] / [readNextLines]: [edgeLine] is
    [firstLineNumber] / [lastLineNumber] ([null] is [None]). *)
Inductive LinesResult :=
  | LinesOk (edgeLine : option Z) (lines : list RawLine) (note : option string)
  | LinesFailure (message : string).

(** [slice.map((content, index) => ({ lineNumber: startIndex + index + 1, content }))] *)
Definition number_lines (startIndex : Z) (slice : list jstr) : list RawLine :=
  imap (fun index c => {| lineNumber := startIndex + Z.of_nat index + 1; content := c |})
    slice.

Definition note_start : string := "Requested line is at the start of the file.".
Definition note_end : string := "Requested line is at or beyond the end of the file.".

Definition readPreviousLines (filePath : string) (lineNumber_ : Z)
    : State -> LinesResult * State :=
  try_catch
    (if lineNumber_ <=? 1 then mret (LinesOk None [] (Some note_start)) else
       lines_ ← loadSrtLines filePath;
       w ← gets SRT_CONTEXT_WINDOW;
       let startIndex := Z.max 0 (lineNumber_ - 1 - w) in
       let endIndex := Z.max 0 (lineNumber_ - 1) in
       let slice := js_slice lines_ startIndex endIndex in
       mret (LinesOk (if (0 <? length slice)%nat then Some (startIndex + 1) else None)
               (number_lines startIndex slice) None))
    LinesFailure.

Definition readNextLines (filePath : string) (lineNumber_ : Z)
    : State -> LinesResult * State :=
  try_catch
    (lines_ ← loadSrtLines filePath;
     if lineNumber_ >=? Z.of_nat (length lines_)
     then mret (LinesOk None [] (Some note_end)) else
       w ← gets SRT_CONTEXT_WINDOW;
       let startIndex := Z.max 0 lineNumber_ in
       let endIndex := Z.min (Z.of_nat (length lines_)) (startIndex + w) in
       let slice := js_slice lines_ startIndex endIndex in
       mret (LinesOk (if (0 <? length slice)%nat
                      then Some (startIndex + Z.of_nat (length slice)) else None)
               (number_lines startIndex slice) None))
    LinesFailure.

End SrtTools.

Import SrtTools.

(* ------------------------------------------------------------------ *)
(** ** Linear-scan variant of read_srt.ts: [getLineNumberAtTimestamp] *)

Module ReadSrt.

(** [let cursor = i - 1;
     while (cursor >= 0 && lines[cursor].trim().length > 0) cursor -= 1;
     cursor += 1;] with [k] standing for [cursor + 1]. *)
Fixpoint scan_back (lines_ : list jstr) (k : nat) : nat :=
  match k with
  | O => O
  | S cursor =>
      match lines_ !! cursor with
      | Some l => if trim_nonempty l then scan_back lines_ cursor else k
      | None => k
      end
  end.

(** The [for] loop over [lines]: the first timing line whose range contains
    [targetMs], as [(i + 1, entryLines)]; [rest] is [lines.slice(i)]. *)
Fixpoint linear_scan (lines_ : list jstr) (targetMs : Z) (i : nat)
    (rest : list jstr) : option (Z * list RawLine) :=
  match rest with
  | [] => None
  | l :: r =>
      match match_timing_line l with
      | None => linear_scan lines_ targetMs (S i) r
      | Some (g1, g2) =>
          match parseTimestamp g1, parseTimestamp g2 with
          | Some s, Some e =>
              if (targetMs >=? s) && (targetMs <=? e) then
                let cursor := scan_back lines_ i in
                Some (Z.of_nat i + 1, collect_entry (drop cursor lines_) cursor)
              else linear_scan lines_ targetMs (S i) r
          | _, _ => linear_scan lines_ targetMs (S i) r
          end
      end
  end.

(** Result of [getLineNumberAtTimestamp]. *)
Inductive LnResult :=
  | LnFound (lineNumber : Z) (entry : list RawLine)
  | LnFailure (message : string).

(** [loadSrtLines] of read_srt.ts reads the file directly, with no cache. *)
Definition getLineNumberAtTimestamp (filePath : string) (timestamp : jstr)
    : State -> LnResult * State :=
  try_catch
    (match parseTimestamp timestamp with
     | None => mret (LnFailure msg_invalid)
     | Some targetMs =>
         content ← readFileSync filePath;
         let lines_ := split_lines content in
         match linear_scan lines_ targetMs 0 lines_ with
         | Some (ln, entry) => mret (LnFound ln entry)
         | None => mret (LnFailure msg_nomatch)
         end
     end)
    LnFailure.

End ReadSrt.

Import ReadSrt.

(** [loadSrtLines], [readPreviousLines] and [readNextLines] of read_srt.ts:
    the same windows as in const.ts, with the file read directly on every
    call instead of through [getSrtData]. *)
Module ReadSrtWindow.

Definition loadSrtLines (filePath : string) : M (list jstr) :=
  content ← readFileSync filePath; mret (split_lines content).

Definition readPreviousLines (filePath : string) (lineNumber_ : Z)
    : State -> LinesResult * State :=
  try_catch
    (if lineNumber_ <=? 1 then mret (LinesOk None [] (Some note_start)) else
       lines_ ← loadSrtLines filePath;
       w ← gets SRT_CONTEXT_WINDOW;
       let startIndex := Z.max 0 (lineNumber_ - 1 - w) in
       let endIndex := Z.max 0 (lineNumber_ - 1) in
       let slice := js_slice lines_ startIndex endIndex in
       mret (LinesOk (if (0 <? length slice)%nat then Some (startIndex + 1) else None)
               (number_lines startIndex slice) None))
    LinesFailure.

Definition readNextLines (filePath : string) (lineNumber_ : Z)
    : State -> LinesResult * State :=
  try_catch
    (lines_ ← loadSrtLines filePath;
     if lineNumber_ >=? Z.of_nat (length lines_)
     then mret (LinesOk None [] (Some note_end)) else
       w ← gets SRT_CONTEXT_WINDOW;
       let startIndex := Z.max 0 lineNumber_ in
       let endIndex := Z.min (Z.of_nat (length lines_)) (startIndex + w) in
       let slice := js_slice lines_ startIndex endIndex in
       mret (LinesOk (if (0 <? length slice)%nat
                      then Some (startIndex + Z.of_nat (length slice)) else None)
               (number_lines startIndex slice) None))
    LinesFailure.

End ReadSrtWindow.

(* ------------------------------------------------------------------ *)
(** ** Properties stated by the specification *)

Module SpecDefs.

(** Value of a decimal digit code unit. *)
Definition digit_value (c : N) : Z := Z.of_N c - 48.

(** The timestamp pattern as the specification words it: two-digit hours,
    minutes and seconds separated by [:], a comma, three-digit
    milliseconds. *)
Definition ts_shape (s : jstr) : Prop :=
  exists h1 h2 m1 m2 s1 s2 x1 x2 x3,
    forallb is_digit [h1; h2; m1; m2; s1; s2; x1; x2; x3] = true /\
    s = [h1; h2; 58%N; m1; m2; 58%N; s1; s2; 44%N; x1; x2; x3].

(** [((HH*60+MM)*60+SS)*1000+mmm] of the specification. *)
Definition ts_value_spec (h1 h2 m1 m2 s1 s2 x1 x2 x3 : N) : Z :=
  let HH := 10 * digit_value h1 + digit_value h2 in
  let MM := 10 * digit_value m1 + digit_value m2 in
  let SS := 10 * digit_value s1 + digit_value s2 in
  let mmm := 100 * digit_value x1 + 10 * digit_value x2 + digit_value x3 in
  ((HH * 60 + MM) * 60 + SS) * 1000 + mmm.

(** A string of the timestamp pattern. *)
Definition is_ts (s : jstr) : bool :=
  match match_ts s with Some (_, []) => true | _ => false end.

(** A timestamp of the pattern whose minute and second fields are at most
    59. *)
Definition clock_valid (s : jstr) : bool :=
  match match_ts s with
  | Some (g, []) => (js_Number (mm g) <? 60) && (js_Number (ss g) <? 60)
  | _ => false
  end.

(** The value [getSrtData] builds from a file. *)
Definition fresh_value (f : FileStat) : SrtCacheValue :=
  {| version := mtimeMs f; lines := split_lines (data f);
     entries := extractEntries (split_lines (data f)) |}.

(** The cache entry for a path when it is current for the file's stat. *)
Definition cache_hit (st : State) (filePath : string) (f : FileStat) : option SrtCacheValue :=
  match srtCache st !! filePath with
  | Some c => if version c =? mtimeMs f then Some c else None
  | None => None
  end.

(** [start <= target <= end] *)
Definition covers (t : Z) (e : SrtEntry) : bool := (start e <=? t) && (t <=? end_ e).

(** Caption ranges that are well formed, sorted and non-overlapping:
    [start <= end] for each, and each ends before the next one starts. *)
Fixpoint ranges_sorted (es : list SrtEntry) : bool :=
  match es with
  | [] => true
  | e :: r =>
      (start e <=? end_ e)
      && match r with [] => true | e' :: _ => end_ e <? start e' end
      && ranges_sorted r
  end.

(** A target in no caption range of a sorted index: before the first,
    after the last, strictly between two consecutive ranges, or an index
    with no caption at all. *)
Definition in_gap (es : list SrtEntry) (t : Z) : Prop :=
  es = [] \/
  (exists e, es !! 0%nat = Some e /\ t < start e) \/
  (exists e, es !! (length es - 1)%nat = Some e /\ end_ e < t) \/
  (exists i e e', es !! i = Some e /\ es !! S i = Some e' /\ end_ e < t < start e').

(** The success result of [getLinesAtTimestamp] for a matched entry. *)
Definition ts_found (lines_ : list jstr) (w : Z) (entry : SrtEntry) : TsResult :=
  let matchedLineNumber := timestampLine entry + 1 in
  let startLineIndex := Z.max 0 (matchedLineNumber - 1 - w) in
  let endLineIndex := Z.min (Z.of_nat (length lines_)) (matchedLineNumber - 1 + w + 1) in
  TsFound (startLineIndex + 1) endLineIndex (entryLines entry)
    (join_nl (js_slice lines_ startLineIndex endLineIndex)).

(** A two-caption subtitle file, ending with a newline. *)
Definition sample_srt : jstr :=
  of_ascii "1" ++ [10%N] ++ of_ascii "00:00:01,000 --> 00:00:02,000" ++ [10%N] ++
  of_ascii "Hello" ++ [10%N; 10%N] ++ of_ascii "2" ++ [10%N] ++
  of_ascii "00:00:03,000 --> 00:00:04,500" ++ [10%N] ++ of_ascii "World" ++ [10%N].

(** Every cache entry holds the index of its own lines, as [getSrtData]
    stores it. *)
Definition cache_wf (st : State) : Prop :=
  forall p c, srtCache st !! p = Some c -> entries c = extractEntries (lines c).

(** A process with the two-caption file at ["a.srt"] and an empty cache. *)
Definition sample_state : State :=
  {| files := <["a.srt" := {| mtimeMs := 5; readable := true; data := sample_srt |}]> ∅;
     srtCache := ∅; SRT_CONTEXT_WINDOW := 2; SRT_INIT_WINDOW := 1 |}.

End SpecDefs.

Import SpecDefs.

(* ------------------------------------------------------------------ *)
(** ** Timestamp codec *)

Module TimestampFacts.

Lemma is_digit_bounds (c : N) : is_digit c = true -> (48 <= c <= 57)%N.
Proof. unfold is_digit. intros H. apply andb_prop in H as [H1 H2]. apply N.leb_le in H1, H2. lia. Qed.

Ltac digits_of H :=
  repeat match type of H with
  | (_ && _) = true => apply andb_prop in H as [? H]
  end.

Lemma match_ts_inv (s : jstr) (g : ts_groups) (r : jstr) :
  match_ts s = Some (g, r) ->
  exists h1 h2 m1 m2 s1 s2 x1 x2 x3,
    forallb is_digit [h1; h2; m1; m2; s1; s2; x1; x2; x3] = true /\
    s = [h1; h2; 58%N; m1; m2; 58%N; s1; s2; 44%N; x1; x2; x3] ++ r /\
    g = {| hh := [h1; h2]; mm := [m1; m2]; ss := [s1; s2]; ms := [x1; x2; x3] |}.
Proof.
  unfold match_ts.
  destruct s as [|h1 [|h2 [|c1 [|m1 [|m2 [|c2 [|s1 [|s2 [|c3 [|x1 [|x2 [|x3 rest]]]]]]]]]]]];
    try discriminate.
  destruct (forallb is_digit [h1; h2; m1; m2; s1; s2; x1; x2; x3]) eqn:D;
    [|discriminate].
  destruct (c1 =? 58)%N eqn:E1; [|discriminate].
  destruct (c2 =? 58)%N eqn:E2; [|discriminate].
  destruct (c3 =? 44)%N eqn:E3; [|discriminate].
  simpl. intros H. inversion H; subst.
  apply N.eqb_eq in E1, E2, E3. subst.
  exists h1, h2, m1, m2, s1, s2, x1, x2, x3. auto.
Qed.

Lemma match_ts_build (h1 h2 m1 m2 s1 s2 x1 x2 x3 : N) (r : jstr) :
  forallb is_digit [h1; h2; m1; m2; s1; s2; x1; x2; x3] = true ->
  match_ts ([h1; h2; 58%N; m1; m2; 58%N; s1; s2; 44%N; x1; x2; x3] ++ r) =
  Some ({| hh := [h1; h2]; mm := [m1; m2]; ss := [s1; s2]; ms := [x1; x2; x3] |}, r).
Proof. intros D. simpl. simpl in D. rewrite D. reflexivity. Qed.

Lemma parseTimestamp_build (h1 h2 m1 m2 s1 s2 x1 x2 x3 : N) :
  forallb is_digit [h1; h2; m1; m2; s1; s2; x1; x2; x3] = true ->
  parseTimestamp [h1; h2; 58%N; m1; m2; 58%N; s1; s2; 44%N; x1; x2; x3] =
  Some (ts_value_spec h1 h2 m1 m2 s1 s2 x1 x2 x3).
Proof.
  intros D. unfold parseTimestamp.
  pose proof (match_ts_build _ _ _ _ _ _ _ _ _ [] D) as E.
  rewrite app_nil_r in E. rewrite E.
  f_equal. unfold ts_value_spec, digit_value, js_Number. simpl. lia.
Qed.

Lemma parseTimestamp_inv (s : jstr) (v : Z) :
  parseTimestamp s = Some v ->
  exists h1 h2 m1 m2 s1 s2 x1 x2 x3,
    forallb is_digit [h1; h2; m1; m2; s1; s2; x1; x2; x3] = true /\
    s = [h1; h2; 58%N; m1; m2; 58%N; s1; s2; 44%N; x1; x2; x3] /\
    v = ts_value_spec h1 h2 m1 m2 s1 s2 x1 x2 x3.
Proof.
  unfold parseTimestamp. destruct (match_ts s) as [[g r]|] eqn:E; [|discriminate].
  destruct r; [|discriminate]. intros H.
  destruct (match_ts_inv _ _ _ E) as (h1 & h2 & m1 & m2 & s1 & s2 & x1 & x2 & x3 & D & -> & ->).
  exists h1, h2, m1, m2, s1, s2, x1, x2, x3. rewrite app_nil_r.
  split; [exact D|]. split; [reflexivity|].
  inversion H. unfold ts_value_spec, digit_value, js_Number. simpl. lia.
Qed.

End TimestampFacts.

Module TimestampClaims.
Import TimestampFacts.

(** C7: [parseTimestamp] returns a value exactly on the strings of the
    shape HH:MM:SS,mmm, and the value is [((HH*60+MM)*60+SS)*1000+mmm];
    on every other string (for example ["99:99"], ["12:00:00.000"] or the
    empty string) it returns [null], and both timestamp lookups then
    return the invalid-format failure without touching any state. *)
Theorem parseTimestamp_exact_pattern :
  (forall (s : jstr) (v : Z),
     parseTimestamp s = Some v <->
     exists h1 h2 m1 m2 s1 s2 x1 x2 x3,
       forallb is_digit [h1; h2; m1; m2; s1; s2; x1; x2; x3] = true /\
       s = [h1; h2; 58%N; m1; m2; 58%N; s1; s2; 44%N; x1; x2; x3] /\
       v = ts_value_spec h1 h2 m1 m2 s1 s2 x1 x2 x3) /\
  (forall (s : jstr), ~ ts_shape s -> parseTimestamp s = None) /\
  (forall (s : jstr) (filePath : string) (st : State),
     parseTimestamp s = None ->
     getLinesAtTimestamp filePath s st = (TsFailure msg_invalid, st) /\
     getLineNumberAtTimestamp filePath s st = (LnFailure msg_invalid, st)) /\
  parseTimestamp (of_ascii "99:99") = None /\
  parseTimestamp (of_ascii "12:00:00.000") = None /\
  parseTimestamp [] = None.
Proof.
  split; [|split; [|split]].
  - intros s v. split.
    + apply parseTimestamp_inv.
    + intros (h1 & h2 & m1 & m2 & s1 & s2 & x1 & x2 & x3 & D & -> & ->).
      apply parseTimestamp_build. exact D.
  - intros s Hs. destruct (parseTimestamp s) as [v|] eqn:E; [|reflexivity].
    exfalso. apply Hs.
    destruct (parseTimestamp_inv _ _ E)
      as (h1 & h2 & m1 & m2 & s1 & s2 & x1 & x2 & x3 & D & -> & _).
    exists h1, h2, m1, m2, s1, s2, x1, x2, x3. auto.
  - intros s filePath st E.
    unfold getLinesAtTimestamp, getLineNumberAtTimestamp, try_catch.
    rewrite E. split; reflexivity.
  - repeat split; reflexivity.
Qed.

(** C9: only the digit shape is checked, not the field ranges: every
    string of the pattern, with minutes or seconds of 60 and above too,
    parses to its computed value; ["00:99:99,999"] parses to 6039999. *)
Theorem parseTimestamp_no_range_check (h1 h2 m1 m2 s1 s2 x1 x2 x3 : N) :
  forallb is_digit [h1; h2; m1; m2; s1; s2; x1; x2; x3] = true ->
  parseTimestamp [h1; h2; 58%N; m1; m2; 58%N; s1; s2; 44%N; x1; x2; x3] =
    Some (ts_value_spec h1 h2 m1 m2 s1 s2 x1 x2 x3) /\
  parseTimestamp (of_ascii "00:99:99,999") = Some 6039999.
Proof.
  intros D. split; [apply parseTimestamp_build; exact D | reflexivity].
Qed.

Lemma parseTimestamp_no_range_check_witness :
  parseTimestamp (of_ascii "00:99:99,999") = Some (ts_value_spec 48 48 57 57 57 57 57 57 57) /\
  parseTimestamp (of_ascii "00:99:99,999") = Some 6039999.
Proof.
  exact (parseTimestamp_no_range_check 48 48 57 57 57 57 57 57 57 eq_refl).
Defined.

(** C5 (counterexample): a pattern string that is lexicographically later
    can parse to a smaller value, since the fields are not range checked:
    ["00:01:00,000"] is later than ["00:00:99,999"] but parses to 60000,
    below 99999. *)
Lemma parseTimestamp_not_monotone :
  js_compare (of_ascii "00:01:00,000") (of_ascii "00:00:99,999") = Gt /\
  parseTimestamp (of_ascii "00:01:00,000") = Some 60000 /\
  parseTimestamp (of_ascii "00:00:99,999") = Some 99999 /\
  ~ (60000 > 99999).
Proof. split; [reflexivity|]. split; [reflexivity|]. split; [reflexivity|]. lia. Qed.

Ltac compare_step H :=
  match type of H with
  | context [N.compare ?a ?b] =>
      revert H; destruct (N.compare_spec a b); intros H; simpl in H;
      [subst | discriminate | ]
  end.

(** C5 (amended): [parseTimestamp] is total on the strings of the pattern,
    and monotonic for those whose minute and second fields are at most 59:
    a lexicographically later such string parses to a larger value. *)
Theorem parseTimestamp_monotone_clock :
  (forall (s : jstr), is_ts s = true -> exists v, parseTimestamp s = Some v) /\
  (forall (a b : jstr),
     clock_valid a = true -> clock_valid b = true -> js_compare a b = Gt ->
     exists va vb, parseTimestamp a = Some va /\ parseTimestamp b = Some vb /\
                   va > vb).
Proof.
  split.
  - intros s. unfold is_ts, parseTimestamp.
    destruct (match_ts s) as [[g [|]]|]; try discriminate. eauto.
  - intros a b Ha Hb Hc. unfold clock_valid in Ha, Hb.
    destruct (match_ts a) as [[ga [|]]|] eqn:Ea; try discriminate.
    destruct (match_ts b) as [[gb [|]]|] eqn:Eb; try discriminate.
    destruct (match_ts_inv _ _ _ Ea)
      as (h1 & h2 & m1 & m2 & s1 & s2 & x1 & x2 & x3 & Da & -> & ->).
    destruct (match_ts_inv _ _ _ Eb)
      as (h1' & h2' & m1' & m2' & s1' & s2' & x1' & x2' & x3' & Db & -> & ->).
    rewrite app_nil_r in Hc. rewrite !app_nil_r.
    rewrite !parseTimestamp_build by assumption.
    eexists _, _. split; [reflexivity|]. split; [reflexivity|].
    simpl in Da, Db. digits_of Da. digits_of Db.
    repeat match goal with
           | H : is_digit _ = true |- _ => apply is_digit_bounds in H
           end.
    simpl in Ha, Hb. apply andb_prop in Ha as [Ha1 Ha2].
    apply andb_prop in Hb as [Hb1 Hb2]. apply Z.ltb_lt in Ha1, Ha2, Hb1, Hb2.
    unfold js_Number in Ha1, Ha2, Hb1, Hb2. simpl in Ha1, Ha2, Hb1, Hb2.
    unfold ts_value_spec, digit_value.
    simpl in Hc.
    repeat (compare_step Hc; [ | lia ]).
    discriminate.
Qed.

Lemma parseTimestamp_monotone_clock_witness :
  exists va vb,
    parseTimestamp (of_ascii "00:01:00,000") = Some va /\
    parseTimestamp (of_ascii "00:00:59,999") = Some vb /\ va > vb.
Proof.
  apply (proj2 parseTimestamp_monotone_clock); reflexivity.
Defined.

End TimestampClaims.

(* ------------------------------------------------------------------ *)
(** ** Caption indexer *)

Module IndexerFacts.
Import TimestampFacts.
Local Open Scope nat_scope.

Lemma digit_not_space (c : N) : is_digit c = true -> is_js_space c = false.
Proof.
  intros D. apply is_digit_bounds in D.
  apply Bool.not_true_iff_false. intros E. unfold is_js_space in E.
  rewrite ?orb_true_iff, ?andb_true_iff, ?N.eqb_eq, ?N.leb_le in E. lia.
Qed.

(** A timing line is not blank: it starts with a digit. *)
Lemma timing_line_nonblank (l : jstr) (g1 g2 : jstr) :
  match_timing_line l = Some (g1, g2) -> trim_nonempty l = true.
Proof.
  unfold match_timing_line.
  destruct (match_ts l) as [[g r]|] eqn:E; [|discriminate]. intros _.
  destruct (match_ts_inv _ _ _ E) as (h1 & h2 & m1 & m2 & s1 & s2 & x1 & x2 & x3 & D & -> & _).
  simpl in D. apply andb_prop in D as [D _].
  unfold trim_nonempty. simpl. rewrite (digit_not_space _ D). reflexivity.
Qed.

Lemma entry_start_spec (lines_ : list jstr) (j : nat) :
  j < length lines_ ->
  entry_start lines_ j <= j /\
  (forall k, entry_start lines_ j <= k < j ->
     exists l, lines_ !! k = Some l /\ trim_nonempty l = true) /\
  (entry_start lines_ j = 0 \/
   exists l, lines_ !! (entry_start lines_ j - 1) = Some l /\ trim_nonempty l = false).
Proof.
  induction j as [|k IH]; intros Hj.
  - simpl. split; [lia|]. split; [intros; lia|]. left; reflexivity.
  - simpl. destruct (lines_ !! k) as [l|] eqn:Ek.
    + destruct (trim_nonempty l) eqn:Bl.
      * destruct IH as (H1 & H2 & H3); [lia|].
        split; [lia|]. split; [|exact H3].
        intros k' Hk'. destruct (decide (k' = k)) as [->|Hne]; [eauto|].
        apply H2. lia.
      * split; [lia|]. split; [intros; lia|]. right. exists l.
        replace (S k - 1) with k by lia. auto.
    + apply lookup_ge_None in Ek. lia.
Qed.

Lemma collect_entry_spec (rest : list jstr) (c : nat) :
  exists n, n <= length rest /\
    (forall k, k < n -> exists l, rest !! k = Some l /\ trim_nonempty l = true) /\
    (n = length rest \/ exists l, rest !! n = Some l /\ trim_nonempty l = false) /\
    length (collect_entry rest c) = n /\
    (forall k l, k < n -> rest !! k = Some l ->
       collect_entry rest c !! k = Some {| lineNumber := (Z.of_nat (c + k) + 1)%Z; content := l |}).
Proof.
  revert c. induction rest as [|l r IH]; intros c.
  - exists 0. simpl. split; [lia|]. split; [intros; lia|].
    split; [left; reflexivity|]. split; [reflexivity|]. intros; lia.
  - simpl. destruct (trim_nonempty l) eqn:Bl.
    + destruct (IH (S c)) as (n & H1 & H2 & H3 & H4 & H5).
      exists (S n). split; [lia|]. split.
      { intros [|k] Hk; simpl; [eauto|]. apply H2. lia. }
      split.
      { destruct H3 as [->|(l' & E & B)]; [left; reflexivity|]. right. eauto. }
      split; [simpl; lia|].
      intros [|k] l' Hk E; simpl in E |- *.
      * inversion E; subst. f_equal. f_equal. lia.
      * rewrite (H5 k l') by (lia || exact E). do 3 f_equal. lia.
    + exists 0. split; [lia|]. split; [intros; lia|].
      split; [right; eauto|]. split; [reflexivity|]. intros; lia.
Qed.

Lemma extract_loop_member (lines_ : list jstr) (rest : list jstr) (i : nat) (e : SrtEntry) :
  drop i lines_ = rest ->
  In e (extract_loop lines_ i rest) ->
  exists j l g1 g2, i <= j /\ lines_ !! j = Some l /\
    match_timing_line l = Some (g1, g2) /\
    parseTimestamp g1 = Some (start e) /\ parseTimestamp g2 = Some (end_ e) /\
    timestampLine e = Z.of_nat j /\
    entryLines e = collect_entry (drop (entry_start lines_ j) lines_) (entry_start lines_ j).
Proof.
  revert i. induction rest as [|l r IH]; intros i Hd Hin; [contradiction|].
  assert (Hl : lines_ !! i = Some l).
  { rewrite <- (Nat.add_0_r i), <- lookup_drop, Hd. reflexivity. }
  assert (Hr : drop (S i) lines_ = r).
  { replace (S i) with (i + 1) by lia. rewrite <- drop_drop, Hd. reflexivity. }
  simpl in Hin.
  destruct (match_timing_line l) as [[g1 g2]|] eqn:Em.
  - destruct (parseTimestamp g1) as [s|] eqn:Es, (parseTimestamp g2) as [t|] eqn:Et;
      try (destruct (IH (S i) Hr Hin) as (j & l' & g1' & g2' & Hj & R);
           exists j, l', g1', g2'; split; [lia | exact R]).
    destruct Hin as [<-|Hin].
    + exists i, l, g1, g2. simpl. repeat split; auto.
    + destruct (IH (S i) Hr Hin) as (j & l' & g1' & g2' & Hj & R).
      exists j, l', g1', g2'. split; [lia | exact R].
  - destruct (IH (S i) Hr Hin) as (j & l' & g1' & g2' & Hj & R).
    exists j, l', g1', g2'. split; [lia | exact R].
Qed.

End IndexerFacts.

Module IndexerClaims.
Import TimestampFacts IndexerFacts.
Local Open Scope nat_scope.

(** C4 (counterexample): the indexer does not check the order of the two
    timestamps: the timing line ["00:00:05,000 --> 00:00:01,000"] is
    indexed with [start = 5000 > end = 1000]. *)
Lemma extractEntries_start_after_end :
  exists e, extractEntries [of_ascii "00:00:05,000 --> 00:00:01,000"] = [e] /\
            start e = 5000%Z /\ end_ e = 1000%Z /\ ~ (start e <= end_ e)%Z.
Proof. eexists. split; [reflexivity|]. cbn. repeat split; lia. Qed.

(** C4 (amended): every indexed entry comes from a timing line at 0-based
    index [i] ([timestampLine]); [start] and [end] are the parsed values
    of its two timestamps, in whatever order they are; [entryLines] is the
    non-empty, contiguous run of non-blank lines [a .. b-1] around [i]
    with line numbers [a+1 .. b], bounded by a blank line or the file
    start above and a blank line or the file end below; the timing line's
    1-based number [i+1] lies in [a+1 .. b]. *)
Theorem extractEntries_block_shape (lines_ : list jstr) (e : SrtEntry) :
  In e (extractEntries lines_) ->
  exists (i a b : nat) (l g1 g2 : jstr),
    timestampLine e = Z.of_nat i /\
    lines_ !! i = Some l /\ match_timing_line l = Some (g1, g2) /\
    parseTimestamp g1 = Some (start e) /\ parseTimestamp g2 = Some (end_ e) /\
    a <= i < b /\ b <= length lines_ /\
    length (entryLines e) = b - a /\
    (forall k, k < b - a ->
       exists l', lines_ !! (a + k) = Some l' /\ trim_nonempty l' = true /\
         entryLines e !! k = Some {| lineNumber := (Z.of_nat (a + k) + 1)%Z; content := l' |}) /\
    (a = 0 \/ exists l', lines_ !! (a - 1) = Some l' /\ trim_nonempty l' = false) /\
    (b = length lines_ \/ exists l', lines_ !! b = Some l' /\ trim_nonempty l' = false) /\
    entryLines e <> [] /\
    (Z.of_nat a + 1 <= timestampLine e + 1 <= Z.of_nat b)%Z.
Proof.
  intros Hin.
  destruct (extract_loop_member lines_ lines_ 0 e eq_refl Hin)
    as (i & l & g1 & g2 & _ & Hl & Hm & Hs & He & Ht & Hent).
  assert (Hi : i < length lines_) by (apply lookup_lt_is_Some; eauto).
  set (a := entry_start lines_ i) in *.
  destruct (entry_start_spec lines_ i Hi) as (Ha1 & Ha2 & Ha3). fold a in Ha1, Ha2, Ha3.
  destruct (collect_entry_spec (drop a lines_) a) as (n & Hn1 & Hn2 & Hn3 & Hn4 & Hn5).
  rewrite length_drop in Hn1.
  assert (Hnb : trim_nonempty l = true) by exact (timing_line_nonblank _ _ _ Hm).
  assert (Hlt : i < a + n).
  { destruct (decide (i < a + n)) as [|Hge]; [assumption|]. exfalso.
    destruct Hn3 as [Hn3|(l' & E & B)].
    - rewrite length_drop in Hn3. lia.
    - rewrite lookup_drop in E.
      destruct (decide (a + n = i)) as [Heq|Hne].
      + rewrite Heq, Hl in E. congruence.
      + destruct (Ha2 (a + n)) as (l'' & E' & B'); [lia|]. congruence. }
  exists i, a, (a + n), l, g1, g2.
  split; [exact Ht|]. split; [exact Hl|]. split; [exact Hm|].
  split; [exact Hs|]. split; [exact He|]. split; [lia|]. split; [lia|].
  rewrite Hent. split; [lia|].
  split.
  { intros k Hk. destruct (Hn2 k) as (l' & E & B); [lia|].
    rewrite lookup_drop in E. exists l'. split; [exact E|]. split; [exact B|].
    apply Hn5; [lia|]. rewrite lookup_drop. exact E. }
  split; [exact Ha3|].
  split.
  { destruct Hn3 as [Hn3|(l' & E & B)].
    - left. rewrite length_drop in Hn3. lia.
    - right. rewrite lookup_drop in E. eauto. }
  split.
  { intros Hnil. apply (f_equal length) in Hnil. simpl in Hnil. lia. }
  rewrite Ht. lia.
Qed.

Lemma extractEntries_block_shape_witness :
  exists (i a b : nat) (l g1 g2 : jstr),
    let lines_ := [of_ascii "1"; of_ascii "00:00:01,000 --> 00:00:02,000";
                   of_ascii "Hello"; []] in
    let e := {| start := 1000%Z; end_ := 2000%Z; timestampLine := 1%Z;
                entryLines := [{| lineNumber := 1%Z; content := of_ascii "1" |};
                               {| lineNumber := 2%Z; content := of_ascii "00:00:01,000 --> 00:00:02,000" |};
                               {| lineNumber := 3%Z; content := of_ascii "Hello" |}] |} in
    timestampLine e = Z.of_nat i /\
    lines_ !! i = Some l /\ match_timing_line l = Some (g1, g2) /\
    parseTimestamp g1 = Some (start e) /\ parseTimestamp g2 = Some (end_ e) /\
    a <= i < b /\ b <= length lines_ /\
    length (entryLines e) = b - a /\
    (forall k, k < b - a ->
       exists l', lines_ !! (a + k) = Some l' /\ trim_nonempty l' = true /\
         entryLines e !! k = Some {| lineNumber := (Z.of_nat (a + k) + 1)%Z; content := l' |}) /\
    (a = 0 \/ exists l', lines_ !! (a - 1) = Some l' /\ trim_nonempty l' = false) /\
    (b = length lines_ \/ exists l', lines_ !! b = Some l' /\ trim_nonempty l' = false) /\
    entryLines e <> [] /\
    (Z.of_nat a + 1 <= timestampLine e + 1 <= Z.of_nat b)%Z.
Proof.
  apply (extractEntries_block_shape
           [of_ascii "1"; of_ascii "00:00:01,000 --> 00:00:02,000"; of_ascii "Hello"; []]).
  vm_compute. left. reflexivity.
Defined.

End IndexerClaims.

(* ------------------------------------------------------------------ *)
(** ** Lookup cache *)

Module CacheFacts.

Ltac run_m :=
  unfold mbind, mret, M_bind, M_ret, throw, gets, cache_get, cache_set,
    statSync, readFileSync in *.

Lemma getSrtData_hit (filePath : string) (st : State) (f : FileStat) (c : SrtCacheValue) :
  files st !! filePath = Some f -> cache_hit st filePath f = Some c ->
  getSrtData filePath st = (Ret c, st).
Proof.
  intros Hf Hc. unfold cache_hit in Hc. unfold getSrtData. run_m. rewrite Hf. simpl.
  destruct (srtCache st !! filePath) as [c'|]; [|discriminate].
  destruct (version c' =? mtimeMs f); [|discriminate]. inversion Hc; subst. reflexivity.
Qed.

Lemma getSrtData_miss (filePath : string) (st : State) (f : FileStat) :
  files st !! filePath = Some f -> cache_hit st filePath f = None ->
  getSrtData filePath st =
    if readable f
    then (Ret (fresh_value f),
          with_cache st (<[filePath := fresh_value f]> (srtCache st)))
    else (Throw (eacces_message filePath), st).
Proof.
  intros Hf Hc. unfold cache_hit in Hc. unfold getSrtData. run_m. rewrite Hf. simpl.
  destruct (srtCache st !! filePath) as [c'|].
  - destruct (version c' =? mtimeMs f); [discriminate|]. rewrite Hf.
    destruct (readable f); reflexivity.
  - rewrite Hf. destruct (readable f); reflexivity.
Qed.

Lemma getSrtData_missing (filePath : string) (st : State) :
  files st !! filePath = None ->
  getSrtData filePath st = (Throw (enoent_message "stat" filePath), st).
Proof. intros Hf. unfold getSrtData. run_m. rewrite Hf. reflexivity. Qed.

(** [getSrtData] either throws leaving the state unchanged, or returns a
    value that is afterwards the current cache entry; the files are never
    changed. *)
Lemma getSrtData_result (filePath : string) (st : State) :
  (exists m, getSrtData filePath st = (Throw m, st)) \/
  exists f v st', files st !! filePath = Some f /\ getSrtData filePath st = (Ret v, st') /\
    files st' = files st /\ cache_hit st' filePath f = Some v /\
    SRT_CONTEXT_WINDOW st' = SRT_CONTEXT_WINDOW st /\ SRT_INIT_WINDOW st' = SRT_INIT_WINDOW st.
Proof.
  destruct (files st !! filePath) as [f|] eqn:Hf.
  - destruct (cache_hit st filePath f) as [c|] eqn:Hc.
    + right. exists f, c, st. rewrite (getSrtData_hit filePath st f c Hf Hc). auto 7.
    + rewrite (getSrtData_miss filePath st f Hf Hc). destruct (readable f).
      * right. eexists f, _, _. split; [reflexivity|]. split; [reflexivity|].
        split; [reflexivity|]. split; [|auto].
        unfold cache_hit, with_cache; simpl. rewrite lookup_insert_eq. simpl.
        rewrite Z.eqb_refl. reflexivity.
      * left. eauto.
  - left. rewrite (getSrtData_missing _ _ Hf). eauto.
Qed.

End CacheFacts.

Module CacheClaims.
Import CacheFacts.

(** C2: with the file present, [getSrtData] returns the cached entry
    unchanged when its version equals the file's current modification
    time; otherwise (no entry, or another version) it reads and indexes
    the file and stores the new value in place of the old entry; a second
    call with the file unchanged returns the same value and changes
    nothing. *)
Theorem getSrtData_cache_coherent (filePath : string) (st : State) (f : FileStat) :
  files st !! filePath = Some f ->
  (forall c, srtCache st !! filePath = Some c -> version c = mtimeMs f ->
     getSrtData filePath st = (Ret c, st)) /\
  ((match srtCache st !! filePath with
    | Some c => version c <> mtimeMs f
    | None => True
    end) ->
   readable f = true ->
   getSrtData filePath st =
     (Ret {| version := mtimeMs f; lines := split_lines (data f);
             entries := extractEntries (split_lines (data f)) |},
      with_cache st (<[filePath := {| version := mtimeMs f; lines := split_lines (data f);
                                     entries := extractEntries (split_lines (data f)) |}]>
                      (srtCache st)))) /\
  (forall v st', getSrtData filePath st = (Ret v, st') ->
     getSrtData filePath st' = (Ret v, st')).
Proof.
  intros Hf. split; [|split].
  - intros c Hc Hv. apply (getSrtData_hit _ _ f); [exact Hf|].
    unfold cache_hit. rewrite Hc, Hv, Z.eqb_refl. reflexivity.
  - intros Hstale Hr. rewrite (getSrtData_miss _ _ f Hf).
    + rewrite Hr. reflexivity.
    + unfold cache_hit. destruct (srtCache st !! filePath) as [c|]; [|reflexivity].
      destruct (version c =? mtimeMs f) eqn:E; [|reflexivity].
      apply Z.eqb_eq in E. contradiction.
  - intros v st' Hrun.
    destruct (getSrtData_result filePath st) as [(m & Hm)|(f' & v' & st'' & Hf' & Hrun' & Hfiles & Hhit & _)].
    + congruence.
    + rewrite Hrun in Hrun'. inversion Hrun'; subst.
      apply (getSrtData_hit _ _ f'); [rewrite Hfiles; exact Hf'|exact Hhit].
Qed.

Lemma getSrtData_cache_coherent_witness :
  let st := {| files := <["a.srt" := {| mtimeMs := 5; readable := true; data := of_ascii "x" |}]> ∅;
               srtCache := ∅; SRT_CONTEXT_WINDOW := 300; SRT_INIT_WINDOW := 100 |} in
  (forall c, srtCache st !! "a.srt" = Some c -> version c = 5 ->
     getSrtData "a.srt" st = (Ret c, st)) /\
  ((match srtCache st !! "a.srt" with Some c => version c <> 5 | None => True end) ->
   true = true ->
   getSrtData "a.srt" st =
     (Ret {| version := 5; lines := split_lines (of_ascii "x");
             entries := extractEntries (split_lines (of_ascii "x")) |},
      with_cache st (<["a.srt" := {| version := 5; lines := split_lines (of_ascii "x");
                                    entries := extractEntries (split_lines (of_ascii "x")) |}]>
                      (srtCache st)))) /\
  (forall v st', getSrtData "a.srt" st = (Ret v, st') -> getSrtData "a.srt" st' = (Ret v, st')).
Proof.
  intros st.
  apply (getSrtData_cache_coherent "a.srt" st
           {| mtimeMs := 5; readable := true; data := of_ascii "x" |}).
  reflexivity.
Defined.

End CacheClaims.

(* ------------------------------------------------------------------ *)
(** ** Window reader *)

Module WindowFacts.
Import CacheFacts.

Lemma loadSrtLines_ok (filePath : string) (st st' : State) (v : SrtCacheValue) :
  getSrtData filePath st = (Ret v, st') ->
  loadSrtLines filePath st = (Ret (lines v), st').
Proof.
  intros H. unfold loadSrtLines. unfold mbind, M_bind. rewrite H. reflexivity.
Qed.

Lemma loadSrtLines_throw (filePath : string) (st st' : State) (m : string) :
  getSrtData filePath st = (Throw m, st') ->
  loadSrtLines filePath st = (Throw m, st').
Proof.
  intros H. unfold loadSrtLines. unfold mbind, M_bind. rewrite H. reflexivity.
Qed.

Lemma readNextLines_loaded (filePath : string) (n : Z) (st st' : State) (ls : list jstr) :
  loadSrtLines filePath st = (Ret ls, st') ->
  readNextLines filePath n st =
    if n >=? Z.of_nat (length ls) then (LinesOk None [] (Some note_end), st')
    else
      let startIndex := Z.max 0 n in
      let endIndex := Z.min (Z.of_nat (length ls)) (startIndex + SRT_CONTEXT_WINDOW st') in
      let slice := js_slice ls startIndex endIndex in
      (LinesOk (if (0 <? length slice)%nat
                then Some (startIndex + Z.of_nat (length slice)) else None)
         (number_lines startIndex slice) None, st').
Proof.
  intros H. unfold readNextLines, try_catch. unfold mbind, M_bind at 1.
  rewrite H. destruct (n >=? Z.of_nat (length ls)); reflexivity.
Qed.

Lemma readNextLines_failed (filePath : string) (n : Z) (st st' : State) (m : string) :
  loadSrtLines filePath st = (Throw m, st') ->
  readNextLines filePath n st = (LinesFailure m, st').
Proof.
  intros H. unfold readNextLines, try_catch. unfold mbind, M_bind at 1.
  rewrite H. reflexivity.
Qed.

End WindowFacts.

Module WindowClaims.
Import CacheFacts WindowFacts.

(** C6: [readPreviousLines] at a line number [<= 1] returns the empty
    success [{success: true, lines: [], firstLineNumber: null}] (with its
    note), and [readNextLines] at a line number [>=] the number of lines of
    the loaded file returns [{success: true, lines: [], lastLineNumber:
    null}] (with its note): out-of-range requests are successes, not
    errors. *)
Theorem read_window_edges :
  (forall (filePath : string) (n : Z) (st : State), n <= 1 ->
     readPreviousLines filePath n st = (LinesOk None [] (Some note_start), st)) /\
  (forall (filePath : string) (n : Z) (st st' : State) (v : SrtCacheValue),
     getSrtData filePath st = (Ret v, st') ->
     Z.of_nat (length (lines v)) <= n ->
     readNextLines filePath n st = (LinesOk None [] (Some note_end), st')).
Proof.
  split.
  - intros filePath n st Hn. unfold readPreviousLines, try_catch.
    apply Z.leb_le in Hn. rewrite Hn. reflexivity.
  - intros filePath n st st' v Hget Hn.
    rewrite (readNextLines_loaded filePath n st st' (lines v)) by
      (apply loadSrtLines_ok; exact Hget).
    apply Z.geb_le in Hn. rewrite Hn. reflexivity.
Qed.

(** C10 (counterexample): a file that exists but cannot be read, whose
    cache entry carries the file's current modification time, is served
    from the cache: [readNextLines] succeeds on it. *)
Lemma readNextLines_unreadable_cached :
  let f := {| mtimeMs := 7; readable := false; data := of_ascii "a" |} in
  let c := {| version := 7; lines := [of_ascii "a"; of_ascii "b"]; entries := [] |} in
  let st := {| files := <["s.srt" := f]> ∅; srtCache := <["s.srt" := c]> ∅;
               SRT_CONTEXT_WINDOW := 300; SRT_INIT_WINDOW := 100 |} in
  readNextLines "s.srt" 5 st = (LinesOk None [] (Some note_end), st) /\
  readNextLines "s.srt" 1 st =
    (LinesOk (Some 2) [{| lineNumber := 2; content := of_ascii "b" |}] None, st).
Proof. split; reflexivity. Qed.

(** C10 (amended): [readPreviousLines] at a line number [<= 1] succeeds
    before any file access, for any files (a missing file too).
    [readNextLines] loads first: for a missing file it fails with the
    [stat] error for every line number; for a file that cannot be read and
    has no cache entry at its current modification time it fails with the
    read error for every line number; a readable file or a current cache
    entry gives a success. *)
Theorem read_window_io_asymmetry :
  (forall (filePath : string) (n : Z) (st : State),
     files st !! filePath = None -> n <= 1 ->
     readPreviousLines filePath n st = (LinesOk None [] (Some note_start), st)) /\
  (forall (filePath : string) (n : Z) (st : State),
     files st !! filePath = None ->
     readNextLines filePath n st = (LinesFailure (enoent_message "stat" filePath), st)) /\
  (forall (filePath : string) (n : Z) (st : State) (f : FileStat),
     files st !! filePath = Some f -> readable f = false ->
     cache_hit st filePath f = None ->
     readNextLines filePath n st = (LinesFailure (eacces_message filePath), st)) /\
  (forall (filePath : string) (n : Z) (st : State) (f : FileStat),
     files st !! filePath = Some f ->
     (readable f = true \/ cache_hit st filePath f <> None) ->
     exists r st', readNextLines filePath n st = (r, st') /\
                   forall m, r <> LinesFailure m).
Proof.
  split; [|split; [|split]].
  - intros filePath n st _ Hn. unfold readPreviousLines, try_catch.
    apply Z.leb_le in Hn. rewrite Hn. reflexivity.
  - intros filePath n st Hf. apply readNextLines_failed.
    apply loadSrtLines_throw. apply getSrtData_missing. exact Hf.
  - intros filePath n st f Hf Hr Hc. apply readNextLines_failed.
    apply loadSrtLines_throw. rewrite (getSrtData_miss filePath st f Hf Hc), Hr.
    reflexivity.
  - intros filePath n st f Hf Hok.
    assert (Hv : exists v st', getSrtData filePath st = (Ret v, st')).
    { destruct (cache_hit st filePath f) as [c|] eqn:Hc.
      - exists c, st. apply (getSrtData_hit filePath st f c Hf Hc).
      - destruct Hok as [Hr|Hn]; [|congruence].
        rewrite (getSrtData_miss filePath st f Hf Hc), Hr. eauto. }
    destruct Hv as (v & st' & Hv).
    rewrite (readNextLines_loaded filePath n st st' (lines v)) by
      (apply loadSrtLines_ok; exact Hv).
    destruct (n >=? Z.of_nat (length (lines v))); eexists _, _; split;
      try reflexivity; discriminate.
Qed.

End WindowClaims.

(* ------------------------------------------------------------------ *)
(** ** Binary search of [getLinesAtTimestamp] *)

Module SearchFacts.
Import CacheFacts.

Lemma ranges_sorted_pairwise (es : list SrtEntry) :
  ranges_sorted es = true ->
  (forall i e, es !! i = Some e -> start e <= end_ e) /\
  (forall i j ei ej, es !! i = Some ei -> es !! j = Some ej -> (i < j)%nat ->
     end_ ei < start ej).
Proof.
  induction es as [|e r IH]; intros H; [split; intros; discriminate|].
  simpl in H. apply andb_prop in H as [H Hr]. apply andb_prop in H as [He Hn].
  apply Z.leb_le in He. destruct (IH Hr) as [IH1 IH2]. split.
  - intros [|i] e0 E; simpl in E; [inversion E; subst; exact He | eauto].
  - intros [|i] [|j] ei ej Ei Ej Hij; simpl in Ei, Ej; try lia.
    + inversion Ei; subst. destruct r as [|e' r']; [discriminate|].
      apply Z.ltb_lt in Hn. destruct j as [|j].
      * simpl in Ej. inversion Ej; subst. exact Hn.
      * assert (end_ e' < start ej) by (apply (IH2 0%nat (S j) e' ej); auto; lia).
        assert (start e' <= end_ e') by (apply (IH1 0%nat); reflexivity). lia.
    + apply (IH2 i j); auto. lia.
Qed.

(** Two entries of a sorted index covering the same target are the same. *)
Lemma covers_unique (es : list SrtEntry) (t : Z) (i j : nat) (ei ej : SrtEntry) :
  ranges_sorted es = true -> es !! i = Some ei -> es !! j = Some ej ->
  covers t ei = true -> covers t ej = true -> i = j.
Proof.
  intros Hs Ei Ej Ci Cj. destruct (ranges_sorted_pairwise es Hs) as [_ P].
  unfold covers in Ci, Cj. apply andb_prop in Ci as [Ci1 Ci2].
  apply andb_prop in Cj as [Cj1 Cj2]. apply Z.leb_le in Ci1, Ci2, Cj1, Cj2.
  destruct (Nat.lt_total i j) as [Hlt|[Heq|Hgt]]; [|exact Heq|].
  - pose proof (P i j ei ej Ei Ej Hlt). lia.
  - pose proof (P j i ej ei Ej Ei Hgt). lia.
Qed.

Lemma bsearch_spec (es : list SrtEntry) (t : Z) (st : State) :
  ranges_sorted es = true ->
  forall fuel left right,
    0 <= left -> right < Z.of_nat (length es) -> right - left + 1 <= Z.of_nat fuel ->
    (forall k e, es !! k = Some e -> Z.of_nat k < left -> end_ e < t) ->
    (forall k e, es !! k = Some e -> right < Z.of_nat k -> t < start e) ->
    (exists k e, es !! k = Some e /\ covers t e = true /\
       bsearch es t fuel left right st = (Ret (Some e), st)) \/
    ((forall k e, es !! k = Some e -> covers t e = false) /\
       bsearch es t fuel left right st = (Ret None, st)).
Proof.
  intros Hs. destruct (ranges_sorted_pairwise es Hs) as [P1 P2].
  induction fuel as [|fuel IH]; intros left right H0 Hr Hf HL HR.
  - right. split; [|reflexivity]. intros k e E. unfold covers.
    destruct (Z_lt_le_dec (Z.of_nat k) left) as [Hk|Hk].
    + pose proof (HL k e E Hk). apply andb_false_iff. right. apply Z.leb_gt. lia.
    + pose proof (HR k e E ltac:(lia)). apply andb_false_iff. left. apply Z.leb_gt. lia.
  - simpl. destruct (left <=? right) eqn:Hlr.
    2:{ right. split; [|reflexivity]. apply Z.leb_gt in Hlr. intros k e E. unfold covers.
        destruct (Z_lt_le_dec (Z.of_nat k) left) as [Hk|Hk].
        - pose proof (HL k e E Hk). apply andb_false_iff. right. apply Z.leb_gt. lia.
        - pose proof (HR k e E ltac:(lia)). apply andb_false_iff. left. apply Z.leb_gt. lia. }
    apply Z.leb_le in Hlr.
    set (mid := (left + right) / 2).
    assert (Hmid : left <= mid <= right) by (unfold mid; Z.to_euclidean_division_equations; lia).
    assert (Hlt : (Z.to_nat mid < length es)%nat) by lia.
    destruct (lookup_lt_is_Some_2 es (Z.to_nat mid) Hlt) as [em Em].
    unfold mbind, M_bind, entry_at.
    replace (mid <? 0) with false by (symmetry; apply Z.ltb_ge; lia).
    rewrite Em. unfold mret, M_ret.
    pose proof (P1 _ _ Em) as Hem.
    destruct (t <? start em) eqn:T1.
    + apply Z.ltb_lt in T1. apply IH; [lia|lia|lia|exact HL|].
      intros k e E Hk. destruct (decide (k = Z.to_nat mid)) as [->|Hne].
      * rewrite Em in E. inversion E; subst. exact T1.
      * pose proof (P2 (Z.to_nat mid) k em e Em E ltac:(lia)). lia.
    + apply Z.ltb_ge in T1. destruct (t >? end_ em) eqn:T2.
      * apply Z.gtb_lt in T2. apply IH; [lia|lia|lia| |exact HR].
        intros k e E Hk. destruct (decide (k = Z.to_nat mid)) as [->|Hne].
        -- rewrite Em in E. inversion E; subst. exact T2.
        -- pose proof (P2 k (Z.to_nat mid) e em E Em ltac:(lia)).
           pose proof (P1 _ _ E). lia.
      * left. exists (Z.to_nat mid), em. split; [exact Em|]. split; [|reflexivity].
        unfold covers. apply andb_true_iff. split; apply Z.leb_le; [lia|].
        rewrite Z.gtb_ltb in T2. apply Z.ltb_ge in T2. lia.
Qed.

(** The search as [getLinesAtTimestamp] starts it: on a sorted index it
    finds the covering entry if there is one. *)
Lemma bsearch_full (es : list SrtEntry) (t : Z) (st : State) :
  ranges_sorted es = true ->
  (exists k e, es !! k = Some e /\ covers t e = true /\
     bsearch es t (length es) 0 (Z.of_nat (length es) - 1) st = (Ret (Some e), st)) \/
  ((forall k e, es !! k = Some e -> covers t e = false) /\
     bsearch es t (length es) 0 (Z.of_nat (length es) - 1) st = (Ret None, st)).
Proof.
  intros Hs. apply bsearch_spec; try lia; auto.
  intros k e E Hk. apply lookup_lt_Some in E. lia.
Qed.

Lemma getLinesAtTimestamp_run (filePath : string) (timestamp : jstr) (st st' : State)
    (v : SrtCacheValue) (t : Z) (r : option SrtEntry) :
  parseTimestamp timestamp = Some t ->
  getSrtData filePath st = (Ret v, st') ->
  bsearch (entries v) t (length (entries v)) 0 (Z.of_nat (length (entries v)) - 1) st'
    = (Ret r, st') ->
  getLinesAtTimestamp filePath timestamp st =
    (match r with
     | None => TsFailure msg_nomatch
     | Some e => ts_found (lines v) (SRT_INIT_WINDOW st') e
     end, st').
Proof.
  intros Hp Hg Hb. unfold getLinesAtTimestamp, try_catch. rewrite Hp.
  unfold mbind, M_bind at 1. rewrite Hg. unfold mbind, M_bind at 1. rewrite Hb.
  destruct r; reflexivity.
Qed.

End SearchFacts.

Module SearchClaims.
Import CacheFacts SearchFacts.

Lemma in_gap_uncovered (es : list SrtEntry) (t : Z) :
  ranges_sorted es = true -> in_gap es t ->
  forall k e, es !! k = Some e -> covers t e = false.
Proof.
  intros Hs Hg k e E. destruct (ranges_sorted_pairwise es Hs) as [P1 P2].
  pose proof (P1 _ _ E) as He. pose proof (lookup_lt_Some _ _ _ E) as Hk.
  unfold covers. apply andb_false_iff.
  destruct Hg as [->|[(e0 & E0 & T)|[(el & El & T)|(i & ei & ei' & Ei & Ei' & T1 & T2)]]].
  - discriminate.
  - left. apply Z.leb_gt. destruct k as [|k].
    + rewrite E0 in E. inversion E; subst. exact T.
    + pose proof (P2 0%nat (S k) e0 e E0 E ltac:(lia)). pose proof (P1 _ _ E0). lia.
  - right. apply Z.leb_gt. destruct (decide (k = length es - 1)%nat) as [->|Hne].
    + rewrite El in E. inversion E; subst. exact T.
    + pose proof (P2 k (length es - 1)%nat e el E El ltac:(lia)). pose proof (P1 _ _ El). lia.
  - destruct (Nat.le_gt_cases k i) as [Hki|Hki].
    + right. apply Z.leb_gt. destruct (decide (k = i)) as [->|Hne].
      * rewrite Ei in E. inversion E; subst. lia.
      * pose proof (P2 k i e ei E Ei ltac:(lia)). pose proof (P1 _ _ Ei). lia.
    + left. apply Z.leb_gt. destruct (decide (k = S i)) as [->|Hne].
      * rewrite Ei' in E. inversion E; subst. lia.
      * pose proof (P2 (S i) k ei' e Ei' E ltac:(lia)). pose proof (P1 _ _ Ei'). lia.
Qed.

(** C1: on an index whose caption ranges are sorted and non-overlapping,
    for a valid timestamp [T] with value [t]: when [t] lies in the range
    of entry [i], [getLinesAtTimestamp] succeeds with entry [i]'s lines;
    when [t] lies before the first range, after the last one or strictly
    between two consecutive ones, it returns the no-match failure. *)
Theorem getLinesAtTimestamp_resolves (filePath : string) (timestamp : jstr)
    (st st' : State) (v : SrtCacheValue) (t : Z) :
  getSrtData filePath st = (Ret v, st') ->
  ranges_sorted (entries v) = true ->
  parseTimestamp timestamp = Some t ->
  (forall i e, entries v !! i = Some e -> start e <= t <= end_ e ->
     exists sl el ctx,
       getLinesAtTimestamp filePath timestamp st = (TsFound sl el (entryLines e) ctx, st')) /\
  (in_gap (entries v) t ->
     getLinesAtTimestamp filePath timestamp st = (TsFailure msg_nomatch, st')).
Proof.
  intros Hg Hs Hp. split.
  - intros i e Ei Hc.
    assert (Ci : covers t e = true)
      by (unfold covers; apply andb_true_iff; split; apply Z.leb_le; lia).
    destruct (bsearch_full (entries v) t st' Hs)
      as [(k & e' & Ek & Ck & Hb)|(Hnone & _)].
    + pose proof (covers_unique _ _ _ _ _ _ Hs Ek Ei Ck Ci) as ->.
      rewrite Ek in Ei. inversion Ei; subst.
      rewrite (getLinesAtTimestamp_run _ _ _ _ _ _ _ Hp Hg Hb).
      unfold ts_found. eauto.
    + rewrite (Hnone _ _ Ei) in Ci. discriminate.
  - intros Hgap.
    destruct (bsearch_full (entries v) t st' Hs)
      as [(k & e' & Ek & Ck & _)|(_ & Hb)].
    + rewrite (in_gap_uncovered _ _ Hs Hgap _ _ Ek) in Ck. discriminate.
    + rewrite (getLinesAtTimestamp_run _ _ _ _ _ _ _ Hp Hg Hb). reflexivity.
Qed.

Lemma getLinesAtTimestamp_resolves_witness :
  let st := {| files := <["a.srt" := {| mtimeMs := 5; readable := true; data := sample_srt |}]> ∅;
               srtCache := ∅; SRT_CONTEXT_WINDOW := 300; SRT_INIT_WINDOW := 1 |} in
  let v := fresh_value {| mtimeMs := 5; readable := true; data := sample_srt |} in
  let st' := with_cache st (<["a.srt" := v]> ∅) in
  (forall i e, entries v !! i = Some e -> start e <= 3500 <= end_ e ->
     exists sl el ctx,
       getLinesAtTimestamp "a.srt" (of_ascii "00:00:03,500") st = (TsFound sl el (entryLines e) ctx, st')) /\
  (in_gap (entries v) 3500 ->
     getLinesAtTimestamp "a.srt" (of_ascii "00:00:03,500") st = (TsFailure msg_nomatch, st')).
Proof.
  intros st v st'.
  apply (getLinesAtTimestamp_resolves "a.srt" (of_ascii "00:00:03,500") st st' v 3500);
    vm_compute; reflexivity.
Defined.

End SearchClaims.

(* ------------------------------------------------------------------ *)
(** ** Linear-scan variant against the binary search *)

Module LinearFacts.
Import CacheFacts SearchFacts.

Lemma scan_back_entry_start (lines_ : list jstr) (k : nat) :
  scan_back lines_ k = entry_start lines_ k.
Proof.
  induction k as [|k IH]; simpl; [reflexivity|].
  destruct (lines_ !! k) as [l|]; [|reflexivity]. destruct (trim_nonempty l); auto.
Qed.

(** The scan meets the timing lines in the order the indexer lists them
    and stops at the first whose range covers the target. *)
Lemma linear_scan_find (lines_ : list jstr) (t : Z) (rest : list jstr) (i : nat) :
  linear_scan lines_ t i rest =
    option_map (fun e => (timestampLine e + 1, entryLines e))
      (List.find (covers t) (extract_loop lines_ i rest)).
Proof.
  revert i. induction rest as [|l r IH]; intros i; simpl; [reflexivity|].
  destruct (match_timing_line l) as [[g1 g2]|]; [|apply IH].
  destruct (parseTimestamp g1) as [s|], (parseTimestamp g2) as [e|]; try apply IH.
  simpl. unfold covers. simpl. rewrite Z.geb_leb.
  destruct ((s <=? t) && (t <=? e)); [|apply IH].
  simpl. rewrite scan_back_entry_start. reflexivity.
Qed.

Lemma find_covers_some (es : list SrtEntry) (t : Z) (k : nat) (e : SrtEntry) :
  ranges_sorted es = true -> es !! k = Some e -> covers t e = true ->
  List.find (covers t) es = Some e.
Proof.
  intros Hs Ek Ck. destruct (List.find (covers t) es) as [e'|] eqn:F.
  - apply List.find_some in F as [Hin C'].
    apply list_elem_of_In, list_elem_of_lookup in Hin as [k' Ek'].
    pose proof (covers_unique _ _ _ _ _ _ Hs Ek Ek' Ck C') as ->. congruence.
  - exfalso. assert (Hin : In e es).
    { apply list_elem_of_In, list_elem_of_lookup. eauto. }
    pose proof (List.find_none _ _ F e Hin). congruence.
Qed.

Lemma find_covers_none (es : list SrtEntry) (t : Z) :
  (forall k e, es !! k = Some e -> covers t e = false) ->
  List.find (covers t) es = None.
Proof.
  intros Hn. destruct (List.find (covers t) es) as [e'|] eqn:F; [|reflexivity].
  apply List.find_some in F as [Hin C'].
  apply list_elem_of_In, list_elem_of_lookup in Hin as [k' Ek'].
  rewrite (Hn _ _ Ek') in C'. discriminate.
Qed.

(** With a readable file and a cache that is absent or built from the
    current content, [getSrtData] yields the index of the current
    content and keeps the tunables. *)
Lemma getSrtData_current (filePath : string) (st : State) (f : FileStat) :
  files st !! filePath = Some f -> readable f = true ->
  (cache_hit st filePath f = None \/ cache_hit st filePath f = Some (fresh_value f)) ->
  exists st', getSrtData filePath st = (Ret (fresh_value f), st') /\
              SRT_INIT_WINDOW st' = SRT_INIT_WINDOW st.
Proof.
  intros Hf Hr [Hc|Hc].
  - rewrite (getSrtData_miss filePath st f Hf Hc), Hr. eexists; split; reflexivity.
  - rewrite (getSrtData_hit filePath st f _ Hf Hc). eexists; split; reflexivity.
Qed.

End LinearFacts.

Module LinearClaims.
Import CacheFacts SearchFacts LinearFacts.

(** C8 (counterexample): the linear variant reads the file on every call
    while the binary variant is served by the cache: once the file has
    been indexed and then made unreadable (its modification time
    unchanged), the binary variant still succeeds and the linear variant
    fails. *)
Lemma linear_binary_disagree_cached :
  let f := {| mtimeMs := 5; readable := false; data := sample_srt |} in
  let st := {| files := <["a.srt" := f]> ∅;
               srtCache := <["a.srt" := fresh_value f]> ∅;
               SRT_CONTEXT_WINDOW := 300; SRT_INIT_WINDOW := 1 |} in
  (exists sl el ent ctx,
     fst (getLinesAtTimestamp "a.srt" (of_ascii "00:00:03,500") st) = TsFound sl el ent ctx) /\
  fst (getLineNumberAtTimestamp "a.srt" (of_ascii "00:00:03,500") st) =
    LnFailure (eacces_message "a.srt").
Proof. split; [vm_compute; eauto | reflexivity]. Qed.

Lemma linear_binary_agree_readable (filePath : string) (timestamp : jstr) (st : State) (f : FileStat) :
  files st !! filePath = Some f -> readable f = true ->
  (cache_hit st filePath f = None \/ cache_hit st filePath f = Some (fresh_value f)) ->
  ranges_sorted (extractEntries (split_lines (data f))) = true ->
  match fst (getLineNumberAtTimestamp filePath timestamp st),
        fst (getLinesAtTimestamp filePath timestamp st) with
  | LnFound ln ent, TsFound sl el ent' ctx =>
      ent' = ent /\ sl = Z.max 1 (ln - SRT_INIT_WINDOW st) /\
      el = Z.min (Z.of_nat (length (split_lines (data f)))) (ln + SRT_INIT_WINDOW st) /\
      ctx = join_nl (js_slice (split_lines (data f)) (sl - 1) el)
  | LnFailure m, TsFailure m' => m = m'
  | _, _ => False
  end.
Proof.
  intros Hf Hr Hc Hs.
  destruct (getSrtData_current filePath st f Hf Hr Hc) as (st' & Hg & Hw).
  destruct (parseTimestamp timestamp) as [t|] eqn:Hp.
  2:{ unfold getLineNumberAtTimestamp, getLinesAtTimestamp, try_catch.
      rewrite Hp. reflexivity. }
  assert (Hlin : fst (getLineNumberAtTimestamp filePath timestamp st) =
                 match linear_scan (split_lines (data f)) t 0 (split_lines (data f)) with
                 | Some (ln, entry) => LnFound ln entry
                 | None => LnFailure msg_nomatch
                 end).
  { unfold getLineNumberAtTimestamp, try_catch. rewrite Hp.
    unfold mbind, M_bind, readFileSync. rewrite Hf, Hr.
    destruct (linear_scan _ _ _ _) as [[? ?]|]; reflexivity. }
  rewrite Hlin, linear_scan_find. fold (extractEntries (split_lines (data f))).
  destruct (bsearch_full (extractEntries (split_lines (data f))) t st' Hs)
    as [(k & e & Ek & Ck & Hb)|(Hnone & Hb)].
  - rewrite (find_covers_some _ _ _ _ Hs Ek Ck). simpl.
    rewrite (getLinesAtTimestamp_run _ _ _ _ (fresh_value f) _ _ Hp Hg Hb). simpl.
    unfold ts_found. rewrite Hw. simpl.
    split; [reflexivity|]. split; [lia|]. split; [f_equal; lia|].
    do 2 f_equal. lia.
  - rewrite (find_covers_none _ _ Hnone). simpl.
    rewrite (getLinesAtTimestamp_run _ _ _ _ (fresh_value f) _ _ Hp Hg Hb). reflexivity.
Qed.

(** An unreadable file with no current cache entry: both variants fail
    with the same [readFileSync] error (or the same format error). *)
Lemma linear_binary_agree_unreadable (filePath : string) (timestamp : jstr) (st : State) (f : FileStat) :
  files st !! filePath = Some f -> readable f = false -> cache_hit st filePath f = None ->
  match fst (getLineNumberAtTimestamp filePath timestamp st),
        fst (getLinesAtTimestamp filePath timestamp st) with
  | LnFailure m, TsFailure m' => m = m'
  | _, _ => False
  end.
Proof.
  intros Hf Hr Hc.
  pose proof (getSrtData_miss filePath st f Hf Hc) as Hg. rewrite Hr in Hg.
  unfold getLineNumberAtTimestamp, getLinesAtTimestamp, try_catch.
  destruct (parseTimestamp timestamp) as [t|]; [|reflexivity].
  cbv [mbind M_bind]. rewrite Hg.
  unfold readFileSync. rewrite Hf, Hr. reflexivity.
Qed.

(** C8 (amended): for an existing file whose caption ranges are sorted and
    non-overlapping, and which has no current cache entry or is readable
    with a cache entry built from its current content, the two variants
    agree: both fail with the same message, or both succeed with the same
    entry lines, the binary variant's window being centred on the linear
    variant's [lineNumber] ([startLine = max 1 (lineNumber - init_window)],
    [endLine = min lineCount (lineNumber + init_window)]). The one case
    left out, an unreadable file with a current cache entry, is the
    counterexample above. *)
Theorem linear_binary_agree (filePath : string) (timestamp : jstr) (st : State) (f : FileStat) :
  files st !! filePath = Some f ->
  (cache_hit st filePath f = None \/
   (readable f = true /\ cache_hit st filePath f = Some (fresh_value f))) ->
  ranges_sorted (extractEntries (split_lines (data f))) = true ->
  match fst (getLineNumberAtTimestamp filePath timestamp st),
        fst (getLinesAtTimestamp filePath timestamp st) with
  | LnFound ln ent, TsFound sl el ent' ctx =>
      ent' = ent /\ sl = Z.max 1 (ln - SRT_INIT_WINDOW st) /\
      el = Z.min (Z.of_nat (length (split_lines (data f)))) (ln + SRT_INIT_WINDOW st) /\
      ctx = join_nl (js_slice (split_lines (data f)) (sl - 1) el)
  | LnFailure m, TsFailure m' => m = m'
  | _, _ => False
  end.
Proof.
  intros Hf Hc Hs. destruct Hc as [Hc|[Hr Hc]].
  - destruct (readable f) eqn:Hr.
    + apply linear_binary_agree_readable; auto.
    + pose proof (linear_binary_agree_unreadable filePath timestamp st f Hf Hr Hc) as H.
      destruct (fst (getLineNumberAtTimestamp filePath timestamp st));
        destruct (fst (getLinesAtTimestamp filePath timestamp st)); first [exact H | contradiction].
  - apply linear_binary_agree_readable; auto.
Qed.

Lemma linear_binary_agree_witness :
  let f := {| mtimeMs := 5; readable := true; data := sample_srt |} in
  let st := {| files := <["a.srt" := f]> ∅; srtCache := ∅;
               SRT_CONTEXT_WINDOW := 300; SRT_INIT_WINDOW := 1 |} in
  let g := {| mtimeMs := 5; readable := false; data := sample_srt |} in
  let su := {| files := <["a.srt" := g]> ∅; srtCache := ∅;
               SRT_CONTEXT_WINDOW := 300; SRT_INIT_WINDOW := 1 |} in
  match fst (getLineNumberAtTimestamp "a.srt" (of_ascii "00:00:03,500") st),
        fst (getLinesAtTimestamp "a.srt" (of_ascii "00:00:03,500") st) with
  | LnFound ln ent, TsFound sl el ent' ctx =>
      ent' = ent /\ sl = Z.max 1 (ln - SRT_INIT_WINDOW st) /\
      el = Z.min (Z.of_nat (length (split_lines (data f)))) (ln + SRT_INIT_WINDOW st) /\
      ctx = join_nl (js_slice (split_lines (data f)) (sl - 1) el)
  | LnFailure m, TsFailure m' => m = m'
  | _, _ => False
  end /\
  match fst (getLineNumberAtTimestamp "a.srt" (of_ascii "00:00:03,500") su),
        fst (getLinesAtTimestamp "a.srt" (of_ascii "00:00:03,500") su) with
  | LnFound ln ent, TsFound sl el ent' ctx =>
      ent' = ent /\ sl = Z.max 1 (ln - SRT_INIT_WINDOW su) /\
      el = Z.min (Z.of_nat (length (split_lines (data g)))) (ln + SRT_INIT_WINDOW su) /\
      ctx = join_nl (js_slice (split_lines (data g)) (sl - 1) el)
  | LnFailure m, TsFailure m' => m = m'
  | _, _ => False
  end.
Proof.
  intros f st g su. split.
  - apply (linear_binary_agree "a.srt" (of_ascii "00:00:03,500") st f);
      [reflexivity | left; reflexivity | vm_compute; reflexivity].
  - apply (linear_binary_agree "a.srt" (of_ascii "00:00:03,500") su g);
      [reflexivity | left; reflexivity | vm_compute; reflexivity].
Defined.

(** C3 (code bug): on a match, the result carries the window's start and
    end lines, the entry lines and the joined window, but not the matched
    timing line's number that the code computes as [matchedLineNumber]:
    with [SRT_INIT_WINDOW = 100] the window is clamped to lines 1..8 of
    [sample_srt], while the matched timing line is line 6 (as the linear
    variant reports). *)
Lemma getLinesAtTimestamp_omits_line_number :
  let f := {| mtimeMs := 5; readable := true; data := sample_srt |} in
  let st := {| files := <["a.srt" := f]> ∅; srtCache := ∅;
               SRT_CONTEXT_WINDOW := 300; SRT_INIT_WINDOW := 100 |} in
  exists ent ctx,
    fst (getLinesAtTimestamp "a.srt" (of_ascii "00:00:03,500") st) = TsFound 1 8 ent ctx /\
    fst (getLineNumberAtTimestamp "a.srt" (of_ascii "00:00:03,500") st) = LnFound 6 ent.
Proof. vm_compute. eauto. Qed.

End LinearClaims.

(* ------------------------------------------------------------------ *)
(** ** Line splitting *)

Module SplitFacts.

Lemma split_lines_acc_nil (cur : jstr) : split_lines_acc cur [] = [rev cur].
Proof. reflexivity. Qed.

(** One step of [split_lines_acc], with the code-unit tests spelt out. *)
Lemma split_lines_acc_cons (cur : jstr) (c : N) (r : jstr) :
  split_lines_acc cur (c :: r) =
    if (c =? 13)%N then
      match r with
      | 10%N :: r' => rev cur :: split_lines_acc [] r'
      | _ => split_lines_acc (c :: cur) r
      end
    else if (c =? 10)%N then rev cur :: split_lines_acc [] r
    else split_lines_acc (c :: cur) r.
Proof.
  destruct c as [|p]; [reflexivity|].
  do 5 (try destruct p as [p|p|]);
    try reflexivity;
    destruct r as [|d r']; try reflexivity;
    destruct d as [|q]; try reflexivity;
    do 5 (try destruct q as [q|q|]); reflexivity.
Qed.

Lemma split_lines_acc_length (s cur : jstr) :
  length (split_lines_acc cur s) = S (count_occ N.eq_dec s 10%N).
Proof.
  remember (length s) as n eqn:Hn. revert s cur Hn.
  induction n as [n IH] using lt_wf_ind. intros s cur Hn.
  destruct s as [|c r]; [reflexivity|].
  rewrite split_lines_acc_cons. simpl in Hn.
  destruct (c =? 13)%N eqn:E13.
  - apply N.eqb_eq in E13. subst c.
    destruct r as [|d r'].
    + simpl. reflexivity.
    + destruct (N.eq_dec d 10%N) as [->|Hd].
      * simpl. rewrite (IH (length r')) by (simpl in Hn; lia || reflexivity). reflexivity.
      * assert (Hm : match d :: r' with
                     | 10%N :: r'' => rev cur :: split_lines_acc [] r''
                     | _ => split_lines_acc (13%N :: cur) (d :: r')
                     end = split_lines_acc (13%N :: cur) (d :: r')).
        { destruct d as [|q]; [reflexivity|].
          do 5 (try destruct q as [q|q|]); try reflexivity. contradiction. }
        rewrite Hm, (IH (length (d :: r'))) by (lia || reflexivity).
        simpl. destruct (N.eq_dec 13%N 10%N); [discriminate|reflexivity].
  - destruct (c =? 10)%N eqn:E10.
    + apply N.eqb_eq in E10. subst c. simpl.
      rewrite (IH (length r)) by (lia || reflexivity). reflexivity.
    + rewrite (IH (length r)) by (lia || reflexivity). simpl.
      destruct (N.eq_dec c 10%N) as [->|]; [discriminate|reflexivity].
Qed.

Lemma split_lines_acc_no_lf (s cur : jstr) :
  ~ In 10%N cur -> forall l, In l (split_lines_acc cur s) -> ~ In 10%N l.
Proof.
  remember (length s) as n eqn:Hn. revert s cur Hn.
  induction n as [n IH] using lt_wf_ind. intros s cur Hn Hcur.
  destruct s as [|c r].
  - simpl. intros l [<-|[]]. rewrite <- in_rev. exact Hcur.
  - rewrite split_lines_acc_cons. simpl in Hn.
    assert (Hrev : ~ In 10%N (rev cur)) by (rewrite <- in_rev; exact Hcur).
    destruct (c =? 13)%N eqn:E13.
    + apply N.eqb_eq in E13. subst c.
      assert (Hgen : forall l, In l (split_lines_acc (13%N :: cur) r) -> ~ In 10%N l).
      { apply (IH (length r)); [lia|reflexivity|]. simpl. intros [H|H]; [discriminate|auto]. }
      destruct r as [|d r']; [exact Hgen|].
      destruct d as [|q]; [exact Hgen|].
      do 5 (try destruct q as [q|q|]); try exact Hgen.
      intros l [<-|Hl]; [exact Hrev|].
      apply (IH (length r') ltac:(simpl in Hn; lia) r' [] eq_refl); simpl; auto.
    + destruct (c =? 10)%N eqn:E10.
      * intros l [<-|Hl]; [exact Hrev|].
        apply (IH (length r) ltac:(lia) r [] eq_refl); simpl; auto.
      * apply (IH (length r)); [lia|reflexivity|]. simpl. intros [H|H]; [|auto].
        subst c. discriminate.
Qed.

Lemma split_lines_acc_cons_shape (s cur : jstr) :
  exists x rest, split_lines_acc cur s = x :: rest.
Proof.
  remember (length s) as n eqn:Hn. revert s cur Hn.
  induction n as [n IH] using lt_wf_ind. intros s cur Hn.
  destruct s as [|c r]; [eauto|].
  rewrite split_lines_acc_cons. simpl in Hn.
  destruct (c =? 13)%N eqn:E13; [apply N.eqb_eq in E13; subst c|].
  - destruct r as [|d r']; [simpl; eauto|].
    destruct (N.eq_dec d 10%N) as [->|Hd]; [eauto|].
    assert (Hm : match d :: r' with
                 | 10%N :: r'' => rev cur :: split_lines_acc [] r''
                 | _ => split_lines_acc (13%N :: cur) (d :: r')
                 end = split_lines_acc (13%N :: cur) (d :: r'))
      by (destruct d as [|q]; [reflexivity|];
          do 5 (try destruct q as [q|q|]); try reflexivity; contradiction).
    rewrite Hm. apply (IH (length (d :: r'))); [lia|reflexivity].
  - destruct (c =? 10)%N; [eauto|]. apply (IH (length r)); [lia|reflexivity].
Qed.

Lemma split_lines_acc_join (s cur : jstr) :
  ~ In 13%N s -> join_nl (split_lines_acc cur s) = rev cur ++ s.
Proof.
  remember (length s) as n eqn:Hn. revert s cur Hn.
  induction n as [n IH] using lt_wf_ind. intros s cur Hn Hcr.
  destruct s as [|c r]; [simpl; rewrite app_nil_r; reflexivity|].
  rewrite split_lines_acc_cons. simpl in Hn.
  destruct (c =? 13)%N eqn:E13.
  { apply N.eqb_eq in E13. subst c. exfalso. apply Hcr. left. reflexivity. }
  assert (Hr : ~ In 13%N r) by (intros H; apply Hcr; right; exact H).
  destruct (c =? 10)%N eqn:E10.
  - apply N.eqb_eq in E10. subst c.
    destruct (split_lines_acc_cons_shape r []) as (x & rest & Hx).
    pose proof (IH (length r) ltac:(lia) r [] eq_refl Hr) as Hj.
    rewrite Hx in Hj |- *. simpl in Hj. simpl. rewrite Hj. reflexivity.
  - rewrite (IH (length r) ltac:(lia) r (c :: cur) eq_refl Hr). simpl.
    rewrite <- app_assoc. reflexivity.
Qed.

End SplitFacts.

(* ------------------------------------------------------------------ *)
(** ** Cache and search: shared facts *)

Module RunFacts.
Import CacheFacts.

(** The four ways a [getSrtData] call can go. *)
Lemma getSrtData_cases (p : string) (st : State) :
  (files st !! p = None /\ getSrtData p st = (Throw (enoent_message "stat" p), st)) \/
  (exists f, files st !! p = Some f /\ readable f = false /\ cache_hit st p f = None /\
     getSrtData p st = (Throw (eacces_message p), st)) \/
  (exists f c, files st !! p = Some f /\ srtCache st !! p = Some c /\ version c = mtimeMs f /\
     getSrtData p st = (Ret c, st)) \/
  (exists f, files st !! p = Some f /\ readable f = true /\ cache_hit st p f = None /\
     getSrtData p st = (Ret (fresh_value f), with_cache st (<[p := fresh_value f]> (srtCache st)))).
Proof.
  destruct (files st !! p) as [f|] eqn:Hf.
  - destruct (cache_hit st p f) as [c|] eqn:Hc.
    + right; right; left. exists f, c. rewrite (getSrtData_hit p st f c Hf Hc).
      unfold cache_hit in Hc. destruct (srtCache st !! p) as [c'|]; [|discriminate].
      destruct (version c' =? mtimeMs f) eqn:Hv; [|discriminate].
      inversion Hc; subst. apply Z.eqb_eq in Hv. auto.
    + pose proof (getSrtData_miss p st f Hf Hc) as Hm. destruct (readable f) eqn:Hr.
      * right; right; right. exists f. auto.
      * right; left. exists f. auto.
  - left. split; [reflexivity|]. apply getSrtData_missing. exact Hf.
Qed.

Lemma cache_hit_fresh (st : State) (p : string) (f : FileStat) :
  cache_hit (with_cache st (<[p := fresh_value f]> (srtCache st))) p f = Some (fresh_value f).
Proof.
  unfold cache_hit, with_cache. simpl. rewrite lookup_insert_eq. simpl.
  rewrite Z.eqb_refl. reflexivity.
Qed.

(** [getSrtData] run a second time, from the state the first call left,
    gives the same result and state. *)
Lemma getSrtData_idem (p : string) (st : State) :
  getSrtData p (snd (getSrtData p st)) = getSrtData p st.
Proof.
  destruct (getSrtData_cases p st)
    as [[_ H]|[(f & _ & _ & _ & H)|[(f & c & _ & _ & _ & H)|(f & Hf & _ & _ & H)]]];
    rewrite H; simpl; try (rewrite H; reflexivity).
  apply getSrtData_hit with (f := f); [exact Hf|]. apply cache_hit_fresh.
Qed.

Lemma bsearch_pure (es : list SrtEntry) (t : Z) (fuel : nat) :
  forall left right, 0 <= left -> right < Z.of_nat (length es) ->
  exists r, (forall st, bsearch es t fuel left right st = (Ret r, st)) /\
    (forall e, r = Some e -> In e es /\ covers t e = true).
Proof.
  induction fuel as [|fuel IH]; intros left right H0 Hr.
  - exists None. split; [reflexivity|discriminate].
  - destruct (left <=? right) eqn:Hlr.
    2:{ exists None. split; [|discriminate]. intros st. simpl. rewrite Hlr. reflexivity. }
    apply Z.leb_le in Hlr.
    set (mid := (left + right) / 2).
    assert (Hmid : left <= mid <= right) by (unfold mid; Z.to_euclidean_division_equations; lia).
    assert (Hlt : (Z.to_nat mid < length es)%nat) by lia.
    destruct (lookup_lt_is_Some_2 es (Z.to_nat mid) Hlt) as [em Em].
    assert (Hrun : forall st, bsearch es t (S fuel) left right st =
      (if t <? start em then bsearch es t fuel left (mid - 1) st
       else if t >? end_ em then bsearch es t fuel (mid + 1) right st
       else (Ret (Some em), st))).
    { intros st. simpl. rewrite (proj2 (Z.leb_le _ _) Hlr). fold mid.
      unfold mbind, M_bind, entry_at.
      replace (mid <? 0) with false by (symmetry; apply Z.ltb_ge; lia).
      rewrite Em. unfold mret, M_ret. destruct (t <? start em); [reflexivity|]. destruct (t >? end_ em); reflexivity. }
    destruct (t <? start em) eqn:T1.
    + destruct (IH left (mid - 1) H0 ltac:(lia)) as (r & Hb & Hs).
      exists r. split; [|exact Hs]. intros st. rewrite Hrun. apply Hb.
    + destruct (t >? end_ em) eqn:T2.
      * destruct (IH (mid + 1) right ltac:(lia) Hr) as (r & Hb & Hs).
        exists r. split; [|exact Hs]. intros st. rewrite Hrun. apply Hb.
      * exists (Some em). split; [intros st; rewrite Hrun; reflexivity|].
        intros e He. inversion He; subst. split.
        -- apply list_elem_of_In, list_elem_of_lookup. eauto.
        -- unfold covers. apply Z.ltb_ge in T1. rewrite Z.gtb_ltb in T2. apply Z.ltb_ge in T2.
           apply andb_true_iff. split; apply Z.leb_le; lia.
Qed.

(** The search as [getLinesAtTimestamp] starts it. *)
Lemma bsearch_pure_full (es : list SrtEntry) (t : Z) :
  exists r, (forall st, bsearch es t (length es) 0 (Z.of_nat (length es) - 1) st = (Ret r, st)) /\
    (forall e, r = Some e -> In e es /\ covers t e = true).
Proof. apply bsearch_pure; lia. Qed.

(** The state a [getLinesAtTimestamp] call leaves is the one its
    [getSrtData] call leaves. *)
Lemma getLinesAtTimestamp_state (p : string) (ts : jstr) (st : State) :
  snd (getLinesAtTimestamp p ts st) =
    match parseTimestamp ts with None => st | Some _ => snd (getSrtData p st) end.
Proof.
  unfold getLinesAtTimestamp, try_catch. destruct (parseTimestamp ts) as [t|]; [|reflexivity].
  unfold mbind, M_bind at 1. destruct (getSrtData p st) as [[v|m] st1]; [|reflexivity].
  destruct (bsearch_pure_full (entries v) t) as (r & Hb & _).
  unfold mbind, M_bind at 1. rewrite Hb. destruct r; reflexivity.
Qed.

Lemma readPreviousLines_state (p : string) (n : Z) (st : State) :
  snd (readPreviousLines p n st) = if n <=? 1 then st else snd (getSrtData p st).
Proof.
  unfold readPreviousLines, try_catch. destruct (n <=? 1); [reflexivity|].
  unfold loadSrtLines, mbind, M_bind. destruct (getSrtData p st) as [[v|m] st1]; reflexivity.
Qed.

Lemma readNextLines_state (p : string) (n : Z) (st : State) :
  snd (readNextLines p n st) = snd (getSrtData p st).
Proof.
  unfold readNextLines, try_catch, loadSrtLines, mbind, M_bind, mret, M_ret, gets.
  destruct (getSrtData p st) as [[v|m] st1]; [|reflexivity].
  destruct (n >=? Z.of_nat (length (lines v))); reflexivity.
Qed.

Lemma getSrtData_wf (p : string) (st : State) :
  cache_wf st -> cache_wf (snd (getSrtData p st)).
Proof.
  intros Hw.
  destruct (getSrtData_cases p st)
    as [[_ H]|[(f & _ & _ & _ & H)|[(f & c & _ & _ & _ & H)|(f & Hf & _ & _ & H)]]];
    rewrite H; simpl; try exact Hw.
  intros q c. unfold with_cache. simpl. destruct (decide (q = p)) as [->|Hne].
  - rewrite lookup_insert_eq. intros E. inversion E; subst. reflexivity.
  - rewrite lookup_insert_ne by congruence. apply Hw.
Qed.

(** A value [getSrtData] returns is afterwards the cache entry of the path,
    and of the file's current version. *)
Lemma getSrtData_ret (p : string) (st st' : State) (v : SrtCacheValue) :
  getSrtData p st = (Ret v, st') ->
  srtCache st' !! p = Some v /\ files st' = files st /\
  SRT_CONTEXT_WINDOW st' = SRT_CONTEXT_WINDOW st /\ SRT_INIT_WINDOW st' = SRT_INIT_WINDOW st /\
  exists f, files st !! p = Some f /\ version v = mtimeMs f.
Proof.
  intros Hg.
  destruct (getSrtData_cases p st)
    as [[_ H]|[(f & _ & _ & _ & H)|[(f & c & Hf & Hc & Hv & H)|(f & Hf & _ & _ & H)]]];
    rewrite H in Hg; inversion Hg; subst.
  - repeat split; auto. eauto.
  - unfold with_cache. simpl. rewrite lookup_insert_eq. repeat split; auto. eauto.
Qed.

Lemma getSrtData_throw (p : string) (st st' : State) (m : string) :
  getSrtData p st = (Throw m, st') ->
  st' = st /\ (m = enoent_message "stat" p \/ m = eacces_message p).
Proof.
  intros Hg.
  destruct (getSrtData_cases p st)
    as [[_ H]|[(f & _ & _ & _ & H)|[(f & c & Hf & Hc & Hv & H)|(f & Hf & _ & _ & H)]]];
    rewrite H in Hg; inversion Hg; subst; auto.
Qed.

Lemma js_slice_lookup {A} (l : list A) (s e : Z) (k : nat) :
  0 <= s -> 0 <= e ->
  js_slice l s e !! k = if s + Z.of_nat k <? e then l !! (Z.to_nat s + k)%nat else None.
Proof.
  intros Hs He. unfold js_slice, rel_index.
  replace (s <? 0) with false by (symmetry; apply Z.ltb_ge; lia).
  replace (e <? 0) with false by (symmetry; apply Z.ltb_ge; lia).
  destruct (Z.lt_ge_cases s (Z.of_nat (length l))) as [Hsl|Hsl].
  - rewrite (Z.min_l s) by lia.
    destruct (Nat.lt_ge_cases k (Z.to_nat (Z.min e (Z.of_nat (length l)) - s))) as [Hk|Hk].
    + rewrite lookup_take_lt by exact Hk. rewrite lookup_drop.
      replace (s + Z.of_nat k <? e) with true by (symmetry; apply Z.ltb_lt; lia). reflexivity.
    + rewrite lookup_take_ge by exact Hk.
      destruct (s + Z.of_nat k <? e) eqn:E; [|reflexivity].
      apply Z.ltb_lt in E. symmetry. apply lookup_ge_None. lia.
  - rewrite (Z.min_r s) by lia. rewrite drop_ge by lia. rewrite lookup_take_ge; [|simpl; lia].
    destruct (s + Z.of_nat k <? e); [|reflexivity]. symmetry. apply lookup_ge_None. lia.
Qed.

Lemma number_lines_lookup (s : Z) (sl : list jstr) (k : nat) :
  number_lines s sl !! k =
    (fun c => {| lineNumber := s + Z.of_nat k + 1; content := c |}) <$> sl !! k.
Proof. unfold number_lines. rewrite list_lookup_imap. reflexivity. Qed.

End RunFacts.

(* ------------------------------------------------------------------ *)
(** ** Indexer and public operations: more facts *)

Module IndexerMore.
Import TimestampFacts IndexerFacts.
Local Open Scope nat_scope.

(** Both timestamps a timing line captures parse. *)
Lemma match_timing_line_parses (l g1 g2 : jstr) :
  match_timing_line l = Some (g1, g2) ->
  (exists s, parseTimestamp g1 = Some s) /\ (exists e, parseTimestamp g2 = Some e).
Proof.
  unfold match_timing_line.
  destruct (match_ts l) as [[ga r1]|] eqn:E1; [|discriminate].
  destruct (spaces1 r1) as [r2|]; [|discriminate].
  destruct (match_arrow r2) as [r3|]; [|discriminate].
  destruct (spaces1 r3) as [r4|]; [|discriminate].
  destruct (match_ts r4) as [[gb r5]|] eqn:E2; [|discriminate].
  intros H. inversion H; subst. clear H.
  destruct (match_ts_inv _ _ _ E1) as (h1 & h2 & m1 & m2 & s1 & s2 & x1 & x2 & x3 & D1 & _ & ->).
  destruct (match_ts_inv _ _ _ E2) as (h1' & h2' & m1' & m2' & s1' & s2' & x1' & x2' & x3' & D2 & _ & ->).
  split; eexists; simpl; apply parseTimestamp_build; assumption.
Qed.

Lemma extract_loop_complete (lines_ : list jstr) (rest : list jstr) (i : nat) :
  drop i lines_ = rest ->
  forall j l g1 g2, i <= j -> lines_ !! j = Some l -> match_timing_line l = Some (g1, g2) ->
  exists e, In e (extract_loop lines_ i rest) /\ timestampLine e = Z.of_nat j /\
    parseTimestamp g1 = Some (start e) /\ parseTimestamp g2 = Some (end_ e).
Proof.
  revert i. induction rest as [|l0 r IH]; intros i Hd j l g1 g2 Hij Hl Hm.
  - apply (f_equal length) in Hd. rewrite length_drop in Hd. simpl in Hd.
    apply lookup_lt_Some in Hl. lia.
  - assert (Hl0 : lines_ !! i = Some l0).
    { rewrite <- (Nat.add_0_r i), <- lookup_drop, Hd. reflexivity. }
    assert (Hr : drop (S i) lines_ = r).
    { replace (S i) with (i + 1) by lia. rewrite <- drop_drop, Hd. reflexivity. }
    destruct (decide (j = i)) as [->|Hne].
    + rewrite Hl in Hl0. inversion Hl0; subst l0. simpl. rewrite Hm.
      destruct (match_timing_line_parses _ _ _ Hm) as [[s Hs] [e He]].
      rewrite Hs, He. eexists. split; [left; reflexivity|]. simpl. auto.
    + destruct (IH (S i) Hr j l g1 g2 ltac:(lia) Hl Hm) as (e & Hin & R).
      exists e. split; [|exact R]. simpl.
      destruct (match_timing_line l0) as [[a b]|]; [|exact Hin].
      destruct (parseTimestamp a), (parseTimestamp b); try exact Hin. right. exact Hin.
Qed.

Lemma extract_loop_bounds (lines_ : list jstr) (rest : list jstr) (i : nat) :
  drop i lines_ = rest ->
  List.Forall (fun e => (Z.of_nat i <= timestampLine e < Z.of_nat (length lines_))%Z)
    (extract_loop lines_ i rest).
Proof.
  intros Hd. apply List.Forall_forall. intros e Hin.
  destruct (extract_loop_member _ _ _ _ Hd Hin)
    as (j & l & g1 & g2 & Hij & Hl & _ & _ & _ & Ht & _).
  apply lookup_lt_Some in Hl. lia.
Qed.

Lemma extract_loop_sorted (lines_ : list jstr) (rest : list jstr) (i : nat) :
  drop i lines_ = rest ->
  ForallOrdPairs (fun a b => (timestampLine a < timestampLine b)%Z) (extract_loop lines_ i rest).
Proof.
  revert i. induction rest as [|l r IH]; intros i Hd; simpl; [constructor|].
  assert (Hr : drop (S i) lines_ = r).
  { replace (S i) with (i + 1) by lia. rewrite <- drop_drop, Hd. reflexivity. }
  destruct (match_timing_line l) as [[g1 g2]|]; [|apply IH; exact Hr].
  destruct (parseTimestamp g1), (parseTimestamp g2); try (apply IH; exact Hr).
  constructor; [|apply IH; exact Hr].
  eapply List.Forall_impl; [|exact (extract_loop_bounds lines_ r (S i) Hr)].
  intros e He. simpl in He |- *. lia.
Qed.

End IndexerMore.

Module OpsFacts.
Import CacheFacts SearchFacts RunFacts.

Lemma getLinesAtTimestamp_cases (p : string) (ts : jstr) (st : State) :
  (parseTimestamp ts = None /\ getLinesAtTimestamp p ts st = (TsFailure msg_invalid, st)) \/
  (exists t m, parseTimestamp ts = Some t /\ getSrtData p st = (Throw m, st) /\
     getLinesAtTimestamp p ts st = (TsFailure m, st)) \/
  (exists t v st1 r, parseTimestamp ts = Some t /\ getSrtData p st = (Ret v, st1) /\
     (forall e, r = Some e -> In e (entries v) /\ covers t e = true) /\
     getLinesAtTimestamp p ts st =
       (match r with
        | None => TsFailure msg_nomatch
        | Some e => ts_found (lines v) (SRT_INIT_WINDOW st1) e
        end, st1)).
Proof.
  destruct (parseTimestamp ts) as [t|] eqn:Hp.
  2:{ left. split; [reflexivity|]. unfold getLinesAtTimestamp, try_catch. rewrite Hp. reflexivity. }
  right. destruct (getSrtData p st) as [[v|m] st1] eqn:Hg.
  - right. destruct (bsearch_pure_full (entries v) t) as (r & Hb & Hs).
    exists t, v, st1, r. split; [reflexivity|]. split; [reflexivity|]. split; [exact Hs|].
    apply (getLinesAtTimestamp_run p ts st st1 v t r Hp Hg (Hb st1)).
  - left. destruct (getSrtData_throw p st st1 m Hg) as [-> _].
    exists t, m. split; [reflexivity|]. split; [reflexivity|].
    unfold getLinesAtTimestamp, try_catch. rewrite Hp.
    unfold mbind, M_bind at 1. rewrite Hg. reflexivity.
Qed.

Lemma readPreviousLines_run (p : string) (n : Z) (st : State) :
  readPreviousLines p n st =
    if n <=? 1 then (LinesOk None [] (Some note_start), st) else
    match getSrtData p st with
    | (Throw m, st1) => (LinesFailure m, st1)
    | (Ret v, st1) =>
        let startIndex := Z.max 0 (n - 1 - SRT_CONTEXT_WINDOW st1) in
        let slice := js_slice (lines v) startIndex (Z.max 0 (n - 1)) in
        (LinesOk (if (0 <? length slice)%nat then Some (startIndex + 1) else None)
           (number_lines startIndex slice) None, st1)
    end.
Proof.
  unfold readPreviousLines, try_catch. destruct (n <=? 1); [reflexivity|].
  unfold loadSrtLines, mbind, M_bind, mret, M_ret, gets.
  destruct (getSrtData p st) as [[v|m] st1]; reflexivity.
Qed.

Lemma readNextLines_run (p : string) (n : Z) (st : State) :
  readNextLines p n st =
    match getSrtData p st with
    | (Throw m, st1) => (LinesFailure m, st1)
    | (Ret v, st1) =>
        if n >=? Z.of_nat (length (lines v)) then (LinesOk None [] (Some note_end), st1) else
        let startIndex := Z.max 0 n in
        let endIndex := Z.min (Z.of_nat (length (lines v))) (startIndex + SRT_CONTEXT_WINDOW st1) in
        let slice := js_slice (lines v) startIndex endIndex in
        (LinesOk (if (0 <? length slice)%nat
                  then Some (startIndex + Z.of_nat (length slice)) else None)
           (number_lines startIndex slice) None, st1)
    end.
Proof.
  unfold readNextLines, try_catch, loadSrtLines, mbind, M_bind, mret, M_ret, gets.
  destruct (getSrtData p st) as [[v|m] st1]; [|reflexivity].
  destruct (n >=? Z.of_nat (length (lines v))); reflexivity.
Qed.

Lemma head_number_lines (s : Z) (sl : list jstr) :
  option_map lineNumber (head (number_lines s sl)) =
    if (0 <? length sl)%nat then Some (s + 1) else None.
Proof. destruct sl as [|x r]; [reflexivity|]. simpl. f_equal. lia. Qed.

Lemma last_number_lines (s : Z) (sl : list jstr) :
  option_map lineNumber (last (number_lines s sl)) =
    if (0 <? length sl)%nat then Some (s + Z.of_nat (length sl)) else None.
Proof.
  rewrite last_lookup.
  replace (length (number_lines s sl)) with (length sl)
    by (unfold number_lines; rewrite length_imap; reflexivity).
  rewrite number_lines_lookup.
  destruct sl as [|x r]; [reflexivity|].
  destruct (lookup_lt_is_Some_2 (x :: r) (pred (length (x :: r)))) as [y Hy]; [simpl; lia|].
  rewrite Hy. simpl. f_equal. simpl in Hy. lia.
Qed.

(** The sample process starts with an empty, hence consistent, cache. *)
Lemma sample_state_wf : cache_wf sample_state.
Proof. intros q c H. unfold sample_state in H. simpl in H. rewrite lookup_empty in H. discriminate. Qed.

End OpsFacts.

(* ------------------------------------------------------------------ *)
(** ** Further properties of the code *)

Module ExtraClaims.
Import TimestampFacts IndexerFacts CacheFacts SearchFacts LinearFacts
  SplitFacts RunFacts IndexerMore OpsFacts.

(** X1: [content.split(/\r?\n/)] yields one line more than the content has
    line feeds. *)
Theorem split_lines_count (s : jstr) :
  length (split_lines s) = S (count_occ N.eq_dec s 10%N).
Proof. apply split_lines_acc_length. Qed.

(** X2: no line produced by the split contains a line feed. *)
Theorem split_lines_no_line_feed (s : jstr) :
  List.Forall (fun l => ~ In 10%N l) (split_lines s).
Proof.
  apply List.Forall_forall. intros l Hl.
  apply (split_lines_acc_no_lf s [] (fun H => H) l Hl).
Qed.

(** X3: for content without carriage returns, joining the lines with
    line feeds gives back the content. *)
Theorem split_lines_join (s : jstr) :
  ~ In 13%N s -> join_nl (split_lines s) = s.
Proof. intros H. unfold split_lines. rewrite split_lines_acc_join by exact H. reflexivity. Qed.

(** X4: every line matching [TIMESTAMP_REGEX] yields an entry whose
    [timestampLine] is that line's index and whose start and end are the
    parsed captures: the branch that skips an unparsable capture is never
    taken. *)
Theorem extractEntries_complete (lines_ : list jstr) (i : nat) (l g1 g2 : jstr) :
  lines_ !! i = Some l -> match_timing_line l = Some (g1, g2) ->
  exists e, In e (extractEntries lines_) /\ timestampLine e = Z.of_nat i /\
    parseTimestamp g1 = Some (start e) /\ parseTimestamp g2 = Some (end_ e).
Proof.
  intros Hl Hm. apply (extract_loop_complete lines_ lines_ 0 eq_refl i l g1 g2); [lia|exact Hl|exact Hm].
Qed.

(** X5: the entries are listed in strictly increasing order of their
    timing line, and each timing line is an index of [lines]. *)
Theorem extractEntries_ordered (lines_ : list jstr) :
  ForallOrdPairs (fun a b => timestampLine a < timestampLine b) (extractEntries lines_) /\
  List.Forall (fun e => 0 <= timestampLine e < Z.of_nat (length lines_)) (extractEntries lines_).
Proof.
  split; [apply extract_loop_sorted; reflexivity|].
  exact (extract_loop_bounds lines_ lines_ 0 eq_refl).
Qed.

(** X6: [getSrtData] changes neither the files nor the windows, and no
    cache entry other than the one of its own path. *)
Theorem getSrtData_frame (p : string) (st : State) :
  let st' := snd (getSrtData p st) in
  files st' = files st /\ SRT_CONTEXT_WINDOW st' = SRT_CONTEXT_WINDOW st /\
  SRT_INIT_WINDOW st' = SRT_INIT_WINDOW st /\
  forall q, q <> p -> srtCache st' !! q = srtCache st !! q.
Proof.
  destruct (getSrtData_cases p st)
    as [[_ H]|[(f & _ & _ & _ & H)|[(f & c & _ & _ & _ & H)|(f & Hf & _ & _ & H)]]];
    simpl; rewrite H; simpl; repeat split; auto.
  intros q Hq. unfold with_cache. simpl. apply lookup_insert_ne. congruence.
Qed.

(** X7: a second [getSrtData] call from the state the first one left gives
    the same result and the same state. *)
Theorem getSrtData_repeat (p : string) (st : State) :
  getSrtData p (snd (getSrtData p st)) = getSrtData p st.
Proof. apply getSrtData_idem. Qed.

(** X8: when every cache entry holds the index of its own lines, this
    still holds after [getSrtData] and after each public operation. *)
Theorem cache_wf_preserved (p : string) (ts : jstr) (n : Z) (st : State) :
  cache_wf st ->
  cache_wf (snd (getSrtData p st)) /\ cache_wf (snd (getLinesAtTimestamp p ts st)) /\
  cache_wf (snd (readPreviousLines p n st)) /\ cache_wf (snd (readNextLines p n st)).
Proof.
  intros Hw. pose proof (getSrtData_wf p st Hw) as Hg.
  rewrite getLinesAtTimestamp_state, readPreviousLines_state, readNextLines_state.
  split; [exact Hg|]. split; [destruct (parseTimestamp ts); assumption|].
  split; [destruct (n <=? 1); assumption|exact Hg].
Qed.

(** X9: repeating a public operation from the state it left gives the same
    result and the same state. *)
Theorem public_ops_repeat (p : string) (ts : jstr) (n : Z) (st : State) :
  getLinesAtTimestamp p ts (snd (getLinesAtTimestamp p ts st)) = getLinesAtTimestamp p ts st /\
  readPreviousLines p n (snd (readPreviousLines p n st)) = readPreviousLines p n st /\
  readNextLines p n (snd (readNextLines p n st)) = readNextLines p n st.
Proof.
  pose proof (getSrtData_idem p st) as Hi.
  destruct (getSrtData p st) as [o st1] eqn:Hg. simpl in Hi.
  split; [|split].
  - rewrite getLinesAtTimestamp_state. destruct (parseTimestamp ts) eqn:Hp; [|reflexivity].
    rewrite Hg. simpl. unfold getLinesAtTimestamp, try_catch. rewrite Hp.
    cbv [mbind M_bind]. rewrite Hi, Hg. reflexivity.
  - rewrite readPreviousLines_state, !readPreviousLines_run.
    destruct (n <=? 1); [reflexivity|]. rewrite Hg. simpl. rewrite Hi. reflexivity.
  - rewrite readNextLines_state, !readNextLines_run, Hg. simpl. rewrite Hi. reflexivity.
Qed.

(** X10: a caption returned by [getLinesAtTimestamp] is one of the indexed
    entries of the file's current version that covers the parsed
    timestamp, whether the index is sorted or not. *)
Theorem getLinesAtTimestamp_found_covers (p : string) (ts : jstr) (st st' : State)
    (sl el : Z) (ent : list RawLine) (ctx : jstr) :
  getLinesAtTimestamp p ts st = (TsFound sl el ent ctx, st') ->
  exists t c e f, parseTimestamp ts = Some t /\ srtCache st' !! p = Some c /\
    files st !! p = Some f /\ version c = mtimeMs f /\
    In e (entries c) /\ covers t e = true /\ ent = entryLines e.
Proof.
  intros H.
  destruct (getLinesAtTimestamp_cases p ts st)
    as [[_ E]|[(t & m & _ & _ & E)|(t & v & st1 & r & Hp & Hg & Hs & E)]];
    rewrite E in H; try discriminate.
  destruct r as [e|]; [|discriminate]. unfold ts_found in H. inversion H; subst.
  destruct (getSrtData_ret _ _ _ _ Hg) as (Hc & _ & _ & _ & f & Hf & Hv).
  destruct (Hs e eq_refl) as [Hin Hcov].
  exists t, v, e, f. auto 8.
Qed.

(** X11: with a consistent cache and a non-negative [SRT_INIT_WINDOW] [w],
    the window of a match is [startLine..endLine] (1-based, inclusive):
    it contains the caption's timing line, which is a line matching
    [TIMESTAMP_REGEX], stays inside the file, spans at most [2w + 1] lines,
    and [contextLines] is these lines joined with line feeds. *)
Theorem getLinesAtTimestamp_window (p : string) (ts : jstr) (st st' : State)
    (sl el : Z) (ent : list RawLine) (ctx : jstr) :
  cache_wf st -> 0 <= SRT_INIT_WINDOW st ->
  getLinesAtTimestamp p ts st = (TsFound sl el ent ctx, st') ->
  exists c e l g1 g2, srtCache st' !! p = Some c /\ In e (entries c) /\ ent = entryLines e /\
    lines c !! Z.to_nat (timestampLine e) = Some l /\ match_timing_line l = Some (g1, g2) /\
    1 <= sl <= timestampLine e + 1 /\ timestampLine e + 1 <= el <= Z.of_nat (length (lines c)) /\
    el - sl <= 2 * SRT_INIT_WINDOW st /\
    ctx = join_nl (js_slice (lines c) (sl - 1) el).
Proof.
  intros Hw HW H.
  destruct (getLinesAtTimestamp_cases p ts st)
    as [[_ E]|[(t & m & _ & _ & E)|(t & v & st1 & r & Hp & Hg & Hs & E)]];
    rewrite E in H; try discriminate.
  destruct r as [e|]; [|discriminate]. unfold ts_found in H. inversion H; subst. clear H.
  destruct (getSrtData_ret _ _ _ _ Hg) as (Hc & _ & _ & Hiw & _).
  destruct (Hs e eq_refl) as [Hin _].
  pose proof (getSrtData_wf p st Hw) as Hw'. rewrite Hg in Hw'. simpl in Hw'.
  pose proof (Hw' p v Hc) as Hev. rewrite Hev in Hin.
  destruct (extract_loop_member (lines v) (lines v) 0 e eq_refl Hin)
    as (j & l & g1 & g2 & _ & Hl & Hm & _ & _ & Ht & _).
  pose proof (lookup_lt_Some _ _ _ Hl) as Hj.
  rewrite Hiw. rewrite <- Hev in Hin.
  exists v, e, l, g1, g2. rewrite Ht, Nat2Z.id.
  split; [exact Hc|]. split; [exact Hin|]. split; [reflexivity|].
  split; [exact Hl|]. split; [exact Hm|].
  split; [lia|]. split; [lia|]. split; [lia|].
  f_equal. f_equal. lia.
Qed.

(** X12: [getLinesAtTimestamp] fails only with the invalid-format message,
    the no-match message, or the [statSync] / [readFileSync] error of the
    path; the [undefined] property read of the search never happens. *)
Theorem getLinesAtTimestamp_failures (p : string) (ts : jstr) (st st' : State) (m : string) :
  getLinesAtTimestamp p ts st = (TsFailure m, st') ->
  m = msg_invalid \/ m = msg_nomatch \/ m = enoent_message "stat" p \/ m = eacces_message p.
Proof.
  intros H.
  destruct (getLinesAtTimestamp_cases p ts st)
    as [[_ E]|[(t & m' & _ & Hg & E)|(t & v & st1 & r & Hp & Hg & Hs & E)]];
    rewrite E in H.
  - inversion H; auto.
  - inversion H; subst. destruct (getSrtData_throw _ _ _ _ Hg) as [_ [-> | ->]]; auto.
  - destruct r; inversion H; auto.
Qed.

(** X13: the window readers fail only with the [statSync] /
    [readFileSync] error of the path, and a failing call leaves the state
    unchanged. *)
Theorem read_lines_failures (p : string) (n : Z) (st st' : State) (m : string) :
  (readPreviousLines p n st = (LinesFailure m, st') \/ readNextLines p n st = (LinesFailure m, st')) ->
  st' = st /\ (m = enoent_message "stat" p \/ m = eacces_message p).
Proof.
  rewrite readPreviousLines_run, readNextLines_run. intros H.
  destruct (getSrtData p st) as [[v|m'] st1] eqn:Hg.
  - destruct H as [H|H].
    + destruct (n <=? 1); discriminate.
    + destruct (n >=? Z.of_nat (length (lines v))); discriminate.
  - destruct (getSrtData_throw _ _ _ _ Hg) as [-> Hm].
    destruct H as [H|H]; [destruct (n <=? 1)|]; inversion H; subst; auto.
Qed.

(** X14: for [lineNumber >= 2], [readPreviousLines] returns the lines of
    the cached index starting at [s = max(0, lineNumber - 1 - W)]: its
    [k]-th result is line [s + k + 1], present exactly when that number
    is below [lineNumber] and the line exists; [firstLineNumber] is the
    number of the first result. *)
Theorem readPreviousLines_content (p : string) (n : Z) (st st' : State)
    (edge : option Z) (ls : list RawLine) (note : option string) :
  2 <= n -> readPreviousLines p n st = (LinesOk edge ls note, st') ->
  let s := Z.max 0 (n - 1 - SRT_CONTEXT_WINDOW st) in
  exists c, srtCache st' !! p = Some c /\ note = None /\
    edge = option_map lineNumber (head ls) /\
    forall k, ls !! k =
      if s + Z.of_nat k <? n - 1
      then (fun l => {| lineNumber := s + Z.of_nat k + 1; content := l |})
             <$> lines c !! (Z.to_nat s + k)%nat
      else None.
Proof.
  intros Hn H s. rewrite readPreviousLines_run in H.
  replace (n <=? 1) with false in H by (symmetry; apply Z.leb_gt; lia).
  destruct (getSrtData p st) as [[v|m] st1] eqn:Hg; [|discriminate].
  destruct (getSrtData_ret _ _ _ _ Hg) as (Hc & _ & Hcw & _).
  rewrite Hcw in H. fold s in H. inversion H; subst. clear H.
  exists v. split; [exact Hc|]. split; [reflexivity|].
  split; [symmetry; apply head_number_lines|].
  intros k. rewrite number_lines_lookup, js_slice_lookup by lia.
  rewrite (Z.max_r 0 (n - 1)) by lia.
  destruct (s + Z.of_nat k <? n - 1); reflexivity.
Qed.

(** X15: with a non-negative [SRT_CONTEXT_WINDOW] [W], [readNextLines]
    answers the end-of-file note when [lineNumber] is at or past the line
    count; otherwise its [k]-th result is line [s + k + 1] of the cached
    index, [s = max(0, lineNumber)], present exactly when [k < W] and the
    line exists, and [lastLineNumber] is the number of the last result. *)
Theorem readNextLines_content (p : string) (n : Z) (st st' : State)
    (edge : option Z) (ls : list RawLine) (note : option string) :
  0 <= SRT_CONTEXT_WINDOW st -> readNextLines p n st = (LinesOk edge ls note, st') ->
  let s := Z.max 0 n in
  exists c, srtCache st' !! p = Some c /\
    ((Z.of_nat (length (lines c)) <= n /\ edge = None /\ ls = [] /\ note = Some note_end) \/
     (n < Z.of_nat (length (lines c)) /\ note = None /\
      edge = option_map lineNumber (last ls) /\
      forall k, ls !! k =
        if (Z.of_nat k <? SRT_CONTEXT_WINDOW st) && (s + Z.of_nat k <? Z.of_nat (length (lines c)))
        then (fun l => {| lineNumber := s + Z.of_nat k + 1; content := l |})
               <$> lines c !! (Z.to_nat s + k)%nat
        else None)).
Proof.
  intros HW H s. rewrite readNextLines_run in H.
  destruct (getSrtData p st) as [[v|m] st1] eqn:Hg; [|discriminate].
  destruct (getSrtData_ret _ _ _ _ Hg) as (Hc & _ & Hcw & _).
  destruct (n >=? Z.of_nat (length (lines v))) eqn:Hge.
  - inversion H; subst. exists v. split; [exact Hc|]. left. rewrite Z.geb_le in Hge. auto.
  - rewrite Hcw in H. fold s in H. inversion H; subst. clear H.
    exists v. split; [exact Hc|]. right.
    rewrite Z.geb_leb in Hge. apply Z.leb_gt in Hge.
    split; [exact Hge|]. split; [reflexivity|].
    split; [symmetry; apply last_number_lines|].
    intros k. rewrite number_lines_lookup, js_slice_lookup by lia.
    replace (s + Z.of_nat k <? Z.min (Z.of_nat (length (lines v))) (s + SRT_CONTEXT_WINDOW st))
      with ((Z.of_nat k <? SRT_CONTEXT_WINDOW st) && (s + Z.of_nat k <? Z.of_nat (length (lines v)))).
    + destruct (_ && _); reflexivity.
    + destruct (Z.ltb_spec (Z.of_nat k) (SRT_CONTEXT_WINDOW st)),
        (Z.ltb_spec (s + Z.of_nat k) (Z.of_nat (length (lines v)))),
        (Z.ltb_spec (s + Z.of_nat k) (Z.min (Z.of_nat (length (lines v))) (s + SRT_CONTEXT_WINDOW st)));
        simpl; lia.
Qed.

(** X16: on a readable file whose cache entry is absent or built from its
    current content, the window readers of read_srt.ts, which read the file
    directly, return what those of const.ts return. *)
Theorem read_srt_windows_agree (p : string) (n : Z) (st : State) (f : FileStat) :
  files st !! p = Some f -> readable f = true ->
  (cache_hit st p f = None \/ cache_hit st p f = Some (fresh_value f)) ->
  fst (ReadSrtWindow.readPreviousLines p n st) = fst (readPreviousLines p n st) /\
  fst (ReadSrtWindow.readNextLines p n st) = fst (readNextLines p n st).
Proof.
  intros Hf Hr Hc.
  destruct (getSrtData_current p st f Hf Hr Hc) as (st1 & Hg & _).
  destruct (getSrtData_ret _ _ _ _ Hg) as (_ & _ & Hcw & _).
  assert (Hl : ReadSrtWindow.loadSrtLines p st = (Ret (split_lines (data f)), st)).
  { unfold ReadSrtWindow.loadSrtLines. run_m. rewrite Hf, Hr. reflexivity. }
  rewrite readPreviousLines_run, readNextLines_run, Hg. simpl. rewrite Hcw.
  unfold ReadSrtWindow.readPreviousLines, ReadSrtWindow.readNextLines, try_catch.
  split.
  - destruct (n <=? 1); [reflexivity|].
    unfold mbind, M_bind at 1. rewrite Hl. reflexivity.
  - unfold mbind, M_bind at 1. rewrite Hl. unfold fresh_value. simpl.
    destruct (n >=? Z.of_nat (length (split_lines (data f)))); reflexivity.
Qed.

(** X17: [getLineNumberAtTimestamp] of read_srt.ts never changes the state
    and never consults the cache: it reports the first entry of the index
    of the file's current content whose range covers the parsed timestamp,
    as its timing line's 1-based number, and otherwise fails with the
    format, no-match or [readFileSync] message. *)
Theorem getLineNumberAtTimestamp_spec (p : string) (ts : jstr) (st : State) :
  getLineNumberAtTimestamp p ts st =
    (match parseTimestamp ts with
     | None => LnFailure msg_invalid
     | Some t =>
         match files st !! p with
         | None => LnFailure (enoent_message "open" p)
         | Some f =>
             if readable f then
               match List.find (covers t) (extractEntries (split_lines (data f))) with
               | Some e => LnFound (timestampLine e + 1) (entryLines e)
               | None => LnFailure msg_nomatch
               end
             else LnFailure (eacces_message p)
         end
     end, st).
Proof.
  unfold getLineNumberAtTimestamp, try_catch.
  destruct (parseTimestamp ts) as [t|]; [|reflexivity].
  run_m. destruct (files st !! p) as [f|]; [|reflexivity].
  destruct (readable f); [|reflexivity].
  rewrite linear_scan_find. unfold extractEntries.
  destruct (List.find (covers t) (extract_loop _ 0 _)); reflexivity.
Qed.

Lemma split_lines_join_witness : join_nl (split_lines sample_srt) = sample_srt.
Proof. apply split_lines_join. intros H. vm_compute in H. intuition discriminate. Defined.

Lemma extractEntries_complete_witness :
  exists e, In e (extractEntries (split_lines sample_srt)) /\ timestampLine e = 5 /\
    parseTimestamp (of_ascii "00:00:03,000") = Some (start e) /\
    parseTimestamp (of_ascii "00:00:04,500") = Some (end_ e).
Proof.
  apply (extractEntries_complete (split_lines sample_srt) 5
           (of_ascii "00:00:03,000 --> 00:00:04,500") (of_ascii "00:00:03,000")
           (of_ascii "00:00:04,500")); vm_compute; reflexivity.
Defined.

Lemma cache_wf_preserved_witness :
  cache_wf (snd (getSrtData "a.srt" sample_state)) /\
  cache_wf (snd (getLinesAtTimestamp "a.srt" (of_ascii "00:00:03,500") sample_state)) /\
  cache_wf (snd (readPreviousLines "a.srt" 6 sample_state)) /\
  cache_wf (snd (readNextLines "a.srt" 6 sample_state)).
Proof. apply (cache_wf_preserved "a.srt" (of_ascii "00:00:03,500") 6 sample_state). exact sample_state_wf. Defined.

Lemma getLinesAtTimestamp_found_covers_witness :
  match getLinesAtTimestamp "a.srt" (of_ascii "00:00:03,500") sample_state with
  | (TsFound sl el ent ctx, st') =>
      exists t c e f, parseTimestamp (of_ascii "00:00:03,500") = Some t /\
        srtCache st' !! "a.srt" = Some c /\ files sample_state !! "a.srt" = Some f /\
        version c = mtimeMs f /\ In e (entries c) /\ covers t e = true /\ ent = entryLines e
  | _ => False
  end.
Proof.
  destruct (getLinesAtTimestamp "a.srt" (of_ascii "00:00:03,500") sample_state)
    as [[sl el ent ctx|m] st'] eqn:E; [|vm_compute in E; discriminate].
  apply (getLinesAtTimestamp_found_covers "a.srt" (of_ascii "00:00:03,500") sample_state st' sl el ent ctx). exact E.
Defined.

Lemma getLinesAtTimestamp_window_witness :
  match getLinesAtTimestamp "a.srt" (of_ascii "00:00:03,500") sample_state with
  | (TsFound sl el ent ctx, st') =>
      exists c e l g1 g2, srtCache st' !! "a.srt" = Some c /\ In e (entries c) /\
        ent = entryLines e /\
        lines c !! Z.to_nat (timestampLine e) = Some l /\ match_timing_line l = Some (g1, g2) /\
        1 <= sl <= timestampLine e + 1 /\ timestampLine e + 1 <= el <= Z.of_nat (length (lines c)) /\
        el - sl <= 2 * SRT_INIT_WINDOW sample_state /\
        ctx = join_nl (js_slice (lines c) (sl - 1) el)
  | _ => False
  end.
Proof.
  destruct (getLinesAtTimestamp "a.srt" (of_ascii "00:00:03,500") sample_state)
    as [[sl el ent ctx|m] st'] eqn:E; [|vm_compute in E; discriminate].
  apply (getLinesAtTimestamp_window "a.srt" (of_ascii "00:00:03,500") sample_state st' sl el ent ctx);
    [exact sample_state_wf | simpl; lia | exact E].
Defined.

Lemma getLinesAtTimestamp_failures_witness :
  msg_nomatch = msg_invalid \/ msg_nomatch = msg_nomatch \/
  msg_nomatch = enoent_message "stat" "a.srt" \/ msg_nomatch = eacces_message "a.srt".
Proof.
  apply (getLinesAtTimestamp_failures "a.srt" (of_ascii "00:00:02,500") sample_state
           (snd (getLinesAtTimestamp "a.srt" (of_ascii "00:00:02,500") sample_state))).
  vm_compute. reflexivity.
Defined.

Lemma read_lines_failures_witness :
  sample_state = sample_state /\
  (enoent_message "stat" "b.srt" = enoent_message "stat" "b.srt" \/
   enoent_message "stat" "b.srt" = eacces_message "b.srt").
Proof.
  apply (read_lines_failures "b.srt" 6 sample_state sample_state). left. vm_compute. reflexivity.
Defined.

Lemma readPreviousLines_content_witness :
  match readPreviousLines "a.srt" 6 sample_state with
  | (LinesOk edge ls note, st') =>
      let s := Z.max 0 (6 - 1 - SRT_CONTEXT_WINDOW sample_state) in
      exists c, srtCache st' !! "a.srt" = Some c /\ note = None /\
        edge = option_map lineNumber (head ls) /\
        forall k, ls !! k =
          if s + Z.of_nat k <? 6 - 1
          then (fun l => {| lineNumber := s + Z.of_nat k + 1; content := l |})
                 <$> lines c !! (Z.to_nat s + k)%nat
          else None
  | _ => False
  end.
Proof.
  destruct (readPreviousLines "a.srt" 6 sample_state)
    as [[edge ls note|m] st'] eqn:E; [|vm_compute in E; discriminate].
  apply (readPreviousLines_content "a.srt" 6 sample_state st' edge ls note); [lia | exact E].
Defined.

Lemma readNextLines_content_witness :
  match readNextLines "a.srt" 1 sample_state with
  | (LinesOk edge ls note, st') =>
      let s := Z.max 0 1 in
      exists c, srtCache st' !! "a.srt" = Some c /\
        ((Z.of_nat (length (lines c)) <= 1 /\ edge = None /\ ls = [] /\ note = Some note_end) \/
         (1 < Z.of_nat (length (lines c)) /\ note = None /\
          edge = option_map lineNumber (last ls) /\
          forall k, ls !! k =
            if (Z.of_nat k <? SRT_CONTEXT_WINDOW sample_state) &&
               (s + Z.of_nat k <? Z.of_nat (length (lines c)))
            then (fun l => {| lineNumber := s + Z.of_nat k + 1; content := l |})
                   <$> lines c !! (Z.to_nat s + k)%nat
            else None))
  | _ => False
  end.
Proof.
  destruct (readNextLines "a.srt" 1 sample_state)
    as [[edge ls note|m] st'] eqn:E; [|vm_compute in E; discriminate].
  apply (readNextLines_content "a.srt" 1 sample_state st' edge ls note); [simpl; lia | exact E].
Defined.

Lemma read_srt_windows_agree_witness :
  fst (ReadSrtWindow.readPreviousLines "a.srt" 6 sample_state) =
    fst (readPreviousLines "a.srt" 6 sample_state) /\
  fst (ReadSrtWindow.readNextLines "a.srt" 6 sample_state) =
    fst (readNextLines "a.srt" 6 sample_state).
Proof.
  apply (read_srt_windows_agree "a.srt" 6 sample_state
           {| mtimeMs := 5; readable := true; data := sample_srt |});
    [vm_compute; reflexivity | reflexivity | left; vm_compute; reflexivity].
Defined.

End ExtraClaims.
